(** * PR description validator (.github/scripts/pr-validate-description.js)

    A shallow embedding of the pull-request description validator and the
    properties its specification states about it.

    Conventions of the embedding.
    - A JavaScript string is a sequence of UTF-16 code units.  The model uses
      [string], whose characters are the code units below 256 (Latin-1, which
      coincides with the first 256 Unicode code points); [trim] and
      [toLowerCase] are the ECMAScript ones restricted to that range.
    - A property that can be absent ([undefined] or [null]) is an [option].
      Fields are typed as the JSDoc typedefs [MarkdownItem] and
      [PRTemplateSection] declare them.
    - [console.log] appends one entry to [stdout]; [process.exitCode] is a
      field of the process state.  A dereference of an absent value throws
      [TypeError], which aborts the run and leaves what was written before. *)

From Stdlib Require Import String Ascii List Bool Arith ZArith Lia.
Import ListNotations.
Local Open Scope string_scope.

(* ------------------------------------------------------------------ *)
(** ** String primitives of the host language                          *)
(* ------------------------------------------------------------------ *)

Module Str.

Definition code (c : ascii) : nat := nat_of_ascii c.

(** The line feed of a template literal that spans two source lines. *)
Definition LF : string := String (ascii_of_nat 10) EmptyString.

(** The double quote character, as a one-character string. *)
Definition DQ : string := String (ascii_of_nat 34) EmptyString.

(** ECMAScript WhiteSpace and LineTerminator code units below 256:
    TAB, LF, VT, FF, CR, SP and NBSP. *)
Definition isWhiteSpace (c : ascii) : bool :=
  let n := code c in
  (((9 <=? n) && (n <=? 13)) || (n =? 32) || (n =? 160))%nat.

(** The class [\d] of a regular expression: the ASCII digits. *)
Definition isDigit (c : ascii) : bool :=
  let n := code c in ((48 <=? n) && (n <=? 57))%nat.

Definition isEmpty (s : string) : bool :=
  match s with EmptyString => true | String _ _ => false end.

(** [String.prototype.trimStart] *)
Fixpoint trimStart (s : string) : string :=
  match s with
  | EmptyString => EmptyString
  | String c r => if isWhiteSpace c then trimStart r else s
  end.

(** [String.prototype.trimEnd]: a white space character is dropped when
    nothing but white space follows it. *)
Fixpoint trimEnd (s : string) : string :=
  match s with
  | EmptyString => EmptyString
  | String c r =>
      let r' := trimEnd r in
      if isWhiteSpace c && isEmpty r' then EmptyString else String c r'
  end.

(** [String.prototype.trim] *)
Definition trim (s : string) : string := trimEnd (trimStart s).

(** Lower-case mapping of one code unit below 256: A-Z and the Latin-1
    capitals (0xC0-0xDE except the multiplication sign 0xD7). *)
Definition lowerChar (c : ascii) : ascii :=
  let n := code c in
  if (((65 <=? n) && (n <=? 90))
      || ((192 <=? n) && (n <=? 222) && negb (n =? 215)))%nat
  then ascii_of_nat (n + 32) else c.

(** [String.prototype.toLowerCase] *)
Fixpoint toLowerCase (s : string) : string :=
  match s with
  | EmptyString => EmptyString
  | String c r => String (lowerChar c) (toLowerCase r)
  end.

(** [String.prototype.startsWith] *)
Fixpoint startsWith (p s : string) : bool :=
  match p with
  | EmptyString => true
  | String a p' =>
      match s with
      | EmptyString => false
      | String b s' => Ascii.eqb a b && startsWith p' s'
      end
  end.

(** [String.prototype.includes] *)
Fixpoint includes (s p : string) : bool :=
  startsWith p s ||
  match s with
  | EmptyString => false
  | String _ r => includes r p
  end.

(** [Array.prototype.join] on an array of strings. *)
Definition join (sep : string) (l : list string) : string :=
  String.concat sep l.

End Str.

(* ------------------------------------------------------------------ *)
(** ** The two regular expressions of the script                        *)
(* ------------------------------------------------------------------ *)

Module Regex.

Definition LT : ascii := "<"%char.
Definition GT : ascii := ">"%char.
Definition HASH : ascii := "#"%char.

(** Remainder of [<[^>]+>] once [<] and one character other than [>]
    have been consumed: more characters other than [>], then [>]. *)
Fixpoint placeholderClose (s : string) : bool :=
  match s with
  | EmptyString => false
  | String c r => if Ascii.eqb c GT then true else placeholderClose r
  end.

(** An attempt to match [<[^>]+>] at the start of [s]. *)
Definition placeholderAt (s : string) : bool :=
  match s with
  | String a (String b r) =>
      Ascii.eqb a LT && negb (Ascii.eqb b GT) && placeholderClose r
  | _ => false
  end.

(** [/<[^>]+>/.test(s)]: the attempt is made at every index in turn. *)
Fixpoint placeholderRegex_test (s : string) : bool :=
  placeholderAt s ||
  match s with
  | EmptyString => false
  | String _ r => placeholderRegex_test r
  end.

(** The longest prefix of digits, what [\d+] consumes greedily. *)
Fixpoint digits (s : string) : string :=
  match s with
  | EmptyString => EmptyString
  | String c r => if Str.isDigit c then String c (digits r) else EmptyString
  end.

(** [s.match(/#\d+/g)], with [null] (no match) read as the empty array,
    which is what [?? []] does at the only call site.  [skip] counts the
    characters still covered by the previous match: the search resumes at
    [lastIndex], the end of that match. *)
Fixpoint matchAll (skip : nat) (s : string) : list string :=
  match s with
  | EmptyString => []
  | String c r =>
      match skip with
      | S k => matchAll k r
      | O =>
          if Ascii.eqb c HASH then
            let d := digits r in
            if Str.isEmpty d then matchAll 0 r
            else String HASH d :: matchAll (String.length d) r
          else matchAll 0 r
      end
  end.

Definition GITHUB_ISSUE_FORMAT_match (s : string) : list string :=
  matchAll 0 s.

End Regex.

(* ------------------------------------------------------------------ *)
(** ** Data model: the output of the markdown reader                    *)
(* ------------------------------------------------------------------ *)

(** An entry of [MarkdownItem.items]: [{checked: boolean, raw: string}]. *)
Module ListItem.
Record t : Type := mk { checked : bool; raw : option string }.
End ListItem.

(** [MarkdownItem]: one parsed markdown element. *)
Module MarkdownItem.
Record t : Type := mk {
  type : option string;
  raw : option string;
  items : option (list ListItem.t)
}.
End MarkdownItem.

(** [PRTemplateSection] *)
Record PRTemplateSection : Type := mkSection {
  bodies : option (list MarkdownItem.t)
}.

(** The parsed [PR_DESCRIPTION_JSON] document. *)
Record PrDescription : Type := mkPrDescription {
  Description_of_changes : option PRTemplateSection;
  GitHub_issues_resolved_by_this_PR : option PRTemplateSection;
  Quality_Assurance : option PRTemplateSection
}.

(* ------------------------------------------------------------------ *)
(** ** Process state and the monad of the script                        *)
(* ------------------------------------------------------------------ *)

Inductive Glyph : Type := CrossMark | CheckMark.

(** One call of [console.log]: the glyph, the field name and the message
    of the template literal [`<glyph> ${fieldName}:\n  > ${message}`]. *)
Record Line : Type := mkLine {
  glyph : Glyph;
  fieldName : string;
  message : string
}.

Record Process : Type := mkProcess {
  stdout : list Line;
  exitCode : option Z
}.

Inductive Exception : Type := TypeError.

Inductive Outcome (A : Type) : Type :=
| Returned (a : A) (p : Process)
| Thrown (e : Exception) (p : Process).
Arguments Returned {A} a p.
Arguments Thrown {A} e p.

Definition Js (A : Type) : Type := Process -> Outcome A.

Definition ret {A} (a : A) : Js A := fun p => Returned a p.

Definition throw {A} (e : Exception) : Js A := fun p => Thrown e p.

Definition bind {A B} (m : Js A) (k : A -> Js B) : Js B :=
  fun p =>
    match m p with
    | Returned a p' => k a p'
    | Thrown e p' => Thrown e p'
    end.

Declare Scope js_scope.
Delimit Scope js_scope with js.
Notation "x <- m ;; k" := (bind m (fun x => k))
  (at level 61, m at next level, right associativity) : js_scope.
Notation "m ;; k" := (bind m (fun _ => k))
  (at level 61, right associativity) : js_scope.
Local Open Scope js_scope.

Definition processOf {A} (o : Outcome A) : Process :=
  match o with Returned _ p => p | Thrown _ p => p end.

Definition console_log (l : Line) : Js unit :=
  fun p => Returned tt (mkProcess (stdout p ++ [l]) (exitCode p)).

Definition set_exitCode (n : Z) : Js unit :=
  fun p => Returned tt (mkProcess (stdout p) (Some n)).

(** [fail(fieldName, message)]: logs the failure and sets the exit code. *)
Definition fail (fieldName message : string) : Js unit :=
  console_log (mkLine CrossMark fieldName message) ;;
  set_exitCode 1.

(** [pass(fieldName, message)]: logs the success. *)
Definition pass (fieldName message : string) : Js unit :=
  console_log (mkLine CheckMark fieldName message).

(* ------------------------------------------------------------------ *)
(** ** Host-language idioms used by the validators                      *)
(* ------------------------------------------------------------------ *)

(** [section?.bodies] *)
Definition optBodies (section : option PRTemplateSection)
  : option (list MarkdownItem.t) :=
  match section with
  | None => None
  | Some s => bodies s
  end.

(** [item.type === "list"] *)
Definition isList (item : MarkdownItem.t) : bool :=
  match MarkdownItem.type item with
  | Some t => String.eqb t "list"
  | None => false
  end.

(** [item.items || []] *)
Definition itemsOrEmpty (item : MarkdownItem.t) : list ListItem.t :=
  match MarkdownItem.items item with
  | Some l => l
  | None => []
  end.

(** [bodies.filter((item) => item.type === "list").at(0)] *)
Definition firstList (bodies : list MarkdownItem.t) : option MarkdownItem.t :=
  match filter isList bodies with
  | [] => None
  | item :: _ => Some item
  end.

(** [item?.raw] *)
Definition optRaw (item : option MarkdownItem.t) : option string :=
  match item with
  | None => None
  | Some i => MarkdownItem.raw i
  end.

(** The guard [if (!x.raw)]: an absent string and the empty string are
    falsy; a truthy one is handed on. *)
Definition whenTruthy (raw : option string) : option string :=
  match raw with
  | None => None
  | Some s => if Str.isEmpty s then None else Some s
  end.

(** [x.raw.trim()]: throws when [x.raw] is absent. *)
Definition raw_trim (raw : option string) : Js string :=
  match raw with
  | None => throw TypeError
  | Some s => ret (Str.trim s)
  end.

(** A template literal or [join] renders an absent value as nothing. *)
Definition display (raw : option string) : string :=
  match raw with
  | None => EmptyString
  | Some s => s
  end.

(** [array.filter(f)] for a callback that may throw. *)
Fixpoint filterJs {A} (f : A -> Js bool) (l : list A) : Js (list A) :=
  match l with
  | [] => ret []
  | x :: r =>
      b <- f x ;;
      r' <- filterJs f r ;;
      ret (if b then x :: r' else r')
  end.

(* ------------------------------------------------------------------ *)
(** ** The validators                                                   *)
(* ------------------------------------------------------------------ *)

(** The callback of the first [filter] over the list items: true only for
    non-empty, non-placeholder items. *)
Definition isConcreteChange (item : ListItem.t) : bool :=
  match whenTruthy (ListItem.raw item) with
  | None => false
  | Some r =>
      let isPlaceholder := Regex.placeholderRegex_test (Str.trim r) in
      (0 <? String.length (Str.trim r))%nat && negb isPlaceholder
  end.

(** The callback of the second [filter]: [item.raw.trim().length > 10]. *)
Definition isMeaningful (item : ListItem.t) : Js bool :=
  t <- raw_trim (ListItem.raw item) ;;
  ret (10 <? String.length t)%nat.

Definition validateDescriptionOfChanges
  (descriptionOfChanges : option PRTemplateSection) : Js unit :=
  match optBodies descriptionOfChanges with
  | None =>
      fail "Description of Changes"
           "Invalid PR template format. The 'Description of changes' section is missing or malformed."
  | Some bodies =>
      let changes :=
        filter isConcreteChange (flat_map itemsOrEmpty (filter isList bodies)) in
      if (List.length changes =? 0)%nat then
        fail "Description of Changes"
             "Pull requests must include at least one specific change in the 'Description of changes' field. Template placeholders are not valid descriptions."
      else
        meaningfulChanges <- filterJs isMeaningful changes ;;
        if (List.length meaningfulChanges =? 0)%nat then
          fail "Description of Changes"
               "Description items must contain meaningful content (more than just a few characters)."
        else
          pass "Description of Changes"
               (Str.join (Str.LF ++ "    > ")
                  (map (fun item => display (ListItem.raw item))
                       meaningfulChanges))
  end.

Definition validateResolvedIssuesSection
  (resolvedIssues : option PRTemplateSection) : Js unit :=
  match optBodies resolvedIssues with
  | None =>
      fail "GitHub Issues"
           "Invalid PR template format. The 'GitHub issues resolved by this PR' section is missing or malformed."
  | Some bodies =>
      let issuesCheckList := firstList bodies in
      match whenTruthy (optRaw issuesCheckList) with
      | None =>
          fail "GitHub Issues"
               "The 'GitHub issues resolved by this PR' section must contain a list of resolved issues."
      | Some raw =>
          let issueList := Regex.GITHUB_ISSUE_FORMAT_match raw in
          if (List.length issueList =? 0)%nat
             && negb (Str.includes (Str.toLowerCase raw) "n/a")
          then
            fail "Missing Resolved Issues"
                 ("Pull requests must specify at least one resolved GitHub issue (e.g., #123) or explicitly state "
                  ++ Str.DQ ++ "N/A" ++ Str.DQ
                  ++ " if no issue applies, in field "
                  ++ Str.DQ ++ raw ++ Str.DQ)
          else
            pass "Issues resolved by this pull request"
                 (if (0 <? List.length issueList)%nat
                  then Str.join "," issueList else "N/A")
      end
  end.

Definition SUCCESS_CRITERIA_TITLE : string :=
  "- Once the changes in this PR are merged and deployed, success criteria is:".

Definition validateQaSection (qaSection : option PRTemplateSection) : Js unit :=
  match optBodies qaSection with
  | None =>
      fail "Quality Assurance"
           "Invalid PR template format. The 'Quality Assurance' section is missing or malformed."
  | Some bodies =>
      match firstList bodies with
      | None =>
          fail "Quality Assurance"
               "The 'Quality Assurance' section must contain a list with success criteria."
      | Some qaCheckList =>
          match MarkdownItem.items qaCheckList with
          | None | Some [] =>
              fail "Quality Assurance"
                   "The success criteria list in the 'Quality Assurance' section cannot be empty."
          | Some (successCriteria :: _) =>
              match whenTruthy (ListItem.raw successCriteria) with
              | None =>
                  fail "Quality Assurance"
                       "Invalid success criteria format in the 'Quality Assurance' section."
              | Some _ => ret tt
              end ;;
              t <- raw_trim (ListItem.raw successCriteria) ;;
              (if String.eqb t SUCCESS_CRITERIA_TITLE then
                 fail "Success criteria"
                      ("Pull requests must have a short description of success criteria, in field "
                       ++ Str.DQ ++ display (ListItem.raw successCriteria) ++ Str.DQ)
               else ret tt) ;;
              pass "Success criteria" (display (ListItem.raw successCriteria))
          end
      end
  end.

(** The script: the three calls at top level, in this order. *)
Definition main (prDescription : PrDescription) : Js unit :=
  validateDescriptionOfChanges (Description_of_changes prDescription) ;;
  validateResolvedIssuesSection
    (GitHub_issues_resolved_by_this_PR prDescription) ;;
  validateQaSection (Quality_Assurance prDescription).

(** A fresh process: nothing written, [process.exitCode] not set. *)
Definition initial : Process := mkProcess [] None.

(** The status the process ends with: 1 after an uncaught exception,
    otherwise [process.exitCode], and 0 when it was never set. *)
Definition exitStatus {A} (o : Outcome A) : Z :=
  match o with
  | Thrown _ _ => 1%Z
  | Returned _ p =>
      match exitCode p with
      | Some n => n
      | None => 0%Z
      end
  end.

Definition run (prDescription : PrDescription) : Outcome unit :=
  main prDescription initial.

(* ------------------------------------------------------------------ *)
(** ** Vocabulary of the specification                                  *)
(* ------------------------------------------------------------------ *)

Inductive Validator : Type :=
| DescriptionOfChanges
| ResolvedIssues
| QualityAssurance.

Definition validate (v : Validator) : option PRTemplateSection -> Js unit :=
  match v with
  | DescriptionOfChanges => validateDescriptionOfChanges
  | ResolvedIssues => validateResolvedIssuesSection
  | QualityAssurance => validateQaSection
  end.

(** The failure kinds of the specification, each as the line that reports
    it. *)
Definition MissingSection (v : Validator) : Line :=
  match v with
  | DescriptionOfChanges =>
      mkLine CrossMark "Description of Changes"
        "Invalid PR template format. The 'Description of changes' section is missing or malformed."
  | ResolvedIssues =>
      mkLine CrossMark "GitHub Issues"
        "Invalid PR template format. The 'GitHub issues resolved by this PR' section is missing or malformed."
  | QualityAssurance =>
      mkLine CrossMark "Quality Assurance"
        "Invalid PR template format. The 'Quality Assurance' section is missing or malformed."
  end.

Definition NoConcreteChanges : Line :=
  mkLine CrossMark "Description of Changes"
    "Pull requests must include at least one specific change in the 'Description of changes' field. Template placeholders are not valid descriptions.".

Definition ChangesNotMeaningful : Line :=
  mkLine CrossMark "Description of Changes"
    "Description items must contain meaningful content (more than just a few characters).".

Definition MissingIssueList : Line :=
  mkLine CrossMark "GitHub Issues"
    "The 'GitHub issues resolved by this PR' section must contain a list of resolved issues.".

Definition MissingResolvedIssues (raw : string) : Line :=
  mkLine CrossMark "Missing Resolved Issues"
    ("Pull requests must specify at least one resolved GitHub issue (e.g., #123) or explicitly state "
     ++ Str.DQ ++ "N/A" ++ Str.DQ ++ " if no issue applies, in field "
     ++ Str.DQ ++ raw ++ Str.DQ).

Definition MissingChecklist : Line :=
  mkLine CrossMark "Quality Assurance"
    "The 'Quality Assurance' section must contain a list with success criteria.".

Definition EmptyChecklist : Line :=
  mkLine CrossMark "Quality Assurance"
    "The success criteria list in the 'Quality Assurance' section cannot be empty.".

Definition InvalidCriteriaFormat : Line :=
  mkLine CrossMark "Quality Assurance"
    "Invalid success criteria format in the 'Quality Assurance' section.".

Definition PlaceholderCriteria (raw : string) : Line :=
  mkLine CrossMark "Success criteria"
    ("Pull requests must have a short description of success criteria, in field "
     ++ Str.DQ ++ raw ++ Str.DQ).

(** The validator returns having written the one failure line [l]. *)
Definition failsWith (l : Line) (p : Process) : Outcome unit :=
  Returned tt (mkProcess (stdout p ++ [l]) (Some 1%Z)).

(** The validator returns having written one pass line and nothing else. *)
Definition passesWith (fieldName message : string) (p : Process)
  : Outcome unit :=
  Returned tt (mkProcess (stdout p ++ [mkLine CheckMark fieldName message])
                         (exitCode p)).

(** What an invocation [o] started in [p] has written. *)
Definition written (p : Process) (o : Outcome unit) : list Line :=
  skipn (List.length (stdout p)) (stdout (processOf o)).

Definition isPassLine (l : Line) : bool :=
  match glyph l with CheckMark => true | CrossMark => false end.

(** A section check passed: run on its own, the validator returns and
    what it wrote is one pass line. *)
Definition sectionPassed (v : Validator) (s : option PRTemplateSection)
  : bool :=
  match validate v s initial with
  | Returned _ p =>
      match stdout p with
      | [l] => isPassLine l
      | _ => false
      end
  | Thrown _ _ => false
  end.

(** The trimmed raw text of a list item; an absent text has none. *)
Definition trimmedRaw (item : ListItem.t) : string :=
  Str.trim (display (ListItem.raw item)).

(** The list items of all list-typed blocks, flattened in order. *)
Definition allListItems (bs : list MarkdownItem.t) : list ListItem.t :=
  flat_map itemsOrEmpty (filter isList bs).

(** What the first filter of the description check removes: items whose
    trimmed text is empty or absent, and items whose trimmed text matches
    the placeholder pattern somewhere. *)
Definition isBoilerplate (item : ListItem.t) : bool :=
  Str.isEmpty (trimmedRaw item)
  || Regex.placeholderRegex_test (trimmedRaw item).

(** The list [S] of the specification. *)
Definition concreteItems (bs : list MarkdownItem.t) : list ListItem.t :=
  filter (fun item => negb (isBoilerplate item)) (allListItems bs).

(** The items of [S] whose trimmed length exceeds 10. *)
Definition meaningfulItems (bs : list MarkdownItem.t) : list ListItem.t :=
  filter (fun item => (10 <? String.length (trimmedRaw item))%nat)
         (concreteItems bs).

Definition descriptionReport (bs : list MarkdownItem.t) : string :=
  Str.join (Str.LF ++ "    > ")
           (map (fun item => display (ListItem.raw item)) (meaningfulItems bs)).

(** The first list-typed block of a section body. *)
Definition firstListBlock (bs : list MarkdownItem.t)
  : option MarkdownItem.t :=
  find isList bs.

(** [raw] contains the substring n/a in some mix of cases. *)
Fixpoint mentionsNA (raw : string) : bool :=
  match raw with
  | String a ((String b (String c _)) as r) =>
      ((Ascii.eqb a "n" || Ascii.eqb a "N") && Ascii.eqb b "/"
       && (Ascii.eqb c "a" || Ascii.eqb c "A"))
      || mentionsNA r
  | _ => false
  end.

(** A text reads [#] followed by one or more digits. *)
Definition isIssueReference (m : string) : Prop :=
  exists d, m = String Regex.HASH d /\ d <> EmptyString
            /\ Regex.digits d = d.

(** No issue reference starts inside [g]: every [#] of [g] is followed,
    in [g ++ rest], by something other than a digit. *)
Fixpoint noReference (g rest : string) : Prop :=
  match g with
  | EmptyString => True
  | String c r =>
      (c = Regex.HASH -> Regex.digits (r ++ rest) = EmptyString)
      /\ noReference r rest
  end.

(** [Extracts s l]: [l] lists the issue references of [s] in order of
    appearance.  Each is preceded by a stretch without references and
    takes all the digits that follow its [#]. *)
Inductive Extracts : string -> list string -> Prop :=
| Extracts_nil : forall g, noReference g EmptyString -> Extracts g []
| Extracts_cons : forall g d rest l,
    noReference g (String Regex.HASH (d ++ rest)) ->
    d <> EmptyString ->
    Regex.digits (d ++ rest) = d ->
    Extracts rest l ->
    Extracts (g ++ String Regex.HASH (d ++ rest)) (String Regex.HASH d :: l).

(** The report of a passing issues check: the references, comma separated
    as a template literal renders an array, or the marker N/A. *)
Definition issuesReport (refs : list string) : string :=
  match refs with
  | [] => "N/A"
  | _ => Str.join "," refs
  end.

(** Pass conditions of the three checks, as the specification words them. *)
Definition descriptionWellFormed (s : option PRTemplateSection) : bool :=
  match optBodies s with
  | None => false
  | Some bs => negb ((List.length (meaningfulItems bs) =? 0)%nat)
  end.

Definition issuesWellFormed (s : option PRTemplateSection) : bool :=
  match optBodies s with
  | None => false
  | Some bs =>
      match firstListBlock bs with
      | Some {| MarkdownItem.raw := Some raw |} =>
          negb (Str.isEmpty raw)
          && (negb ((List.length (Regex.GITHUB_ISSUE_FORMAT_match raw) =? 0)%nat)
              || mentionsNA raw)
      | _ => false
      end
  end.

Definition qaWellFormed (s : option PRTemplateSection) : bool :=
  match optBodies s with
  | None => false
  | Some bs =>
      match firstListBlock bs with
      | Some {| MarkdownItem.items := Some ({| ListItem.raw := Some raw |} :: _) |} =>
          negb (Str.isEmpty raw)
          && negb (String.eqb (Str.trim raw) SUCCESS_CRITERIA_TITLE)
      | _ => false
      end
  end.

(** Forgetting the [checked] state of every list item. *)
Definition uncheckItem (i : ListItem.t) : ListItem.t :=
  ListItem.mk false (ListItem.raw i).

Definition uncheckBlock (b : MarkdownItem.t) : MarkdownItem.t :=
  MarkdownItem.mk (MarkdownItem.type b) (MarkdownItem.raw b)
                  (option_map (map uncheckItem) (MarkdownItem.items b)).

Definition uncheckSection (s : PRTemplateSection) : PRTemplateSection :=
  mkSection (option_map (map uncheckBlock) (bodies s)).

Definition uncheck (d : PrDescription) : PrDescription :=
  mkPrDescription
    (option_map uncheckSection (Description_of_changes d))
    (option_map uncheckSection (GitHub_issues_resolved_by_this_PR d))
    (option_map uncheckSection (Quality_Assurance d)).

(** Two payloads differ only in the [checked] fields of their items. *)
Definition differOnlyInChecked (d1 d2 : PrDescription) : Prop :=
  uncheck d1 = uncheck d2.

(** What [validateQaSection] does once the first item of the first list
    is at hand. *)
Definition qaOnCriteria (successCriteria : ListItem.t) (p : Process)
  : Outcome unit :=
  match ListItem.raw successCriteria with
  | None =>
      Thrown TypeError
        (mkProcess (stdout p ++ [InvalidCriteriaFormat]) (Some 1%Z))
  | Some r =>
      if Str.isEmpty r then
        Returned tt
          (mkProcess (stdout p ++ [InvalidCriteriaFormat;
                                   mkLine CheckMark "Success criteria" r])
                     (Some 1%Z))
      else if String.eqb (Str.trim r) SUCCESS_CRITERIA_TITLE then
        Returned tt
          (mkProcess (stdout p ++ [PlaceholderCriteria r;
                                   mkLine CheckMark "Success criteria" r])
                     (Some 1%Z))
      else passesWith "Success criteria" r p
  end.

(** Every character of [s] satisfies [f]. *)
Fixpoint allChars (f : ascii -> bool) (s : string) : bool :=
  match s with
  | EmptyString => true
  | String c r => f c && allChars f r
  end.

(** The text [s] matches [<[^>]+>] somewhere: it holds a [<], then one or
    more characters other than [>], then a [>]. *)
Definition MatchesPlaceholder (s : string) : Prop :=
  exists pre mid post,
    s = pre ++ String Regex.LT (mid ++ String Regex.GT post)
    /\ mid <> EmptyString
    /\ allChars (fun c => negb (Ascii.eqb c Regex.GT)) mid = true.

(** [s] without its first [n] characters. *)
Fixpoint dropChars (n : nat) (s : string) : string :=
  match n, s with
  | O, _ => s
  | S k, EmptyString => EmptyString
  | S k, String _ r => dropChars k r
  end.

(** The verdict of the issues check on a non-empty raw text [raw] whose
    references are [refs]. *)
Definition issuesVerdict (raw : string) (refs : list string) (p : Process)
  : Outcome unit :=
  if negb ((List.length refs =? 0)%nat) || mentionsNA raw
  then passesWith "Issues resolved by this pull request" (issuesReport refs) p
  else failsWith (MissingResolvedIssues raw) p.

(** A Quality Assurance section whose only checklist item is the unedited
    template heading. *)
Definition placeholderQaSection : option PRTemplateSection :=
  Some (mkSection (Some
    [MarkdownItem.mk (Some "list") (Some SUCCESS_CRITERIA_TITLE)
       (Some [ListItem.mk false (Some SUCCESS_CRITERIA_TITLE)])])).

(** A section with one list block holding the one item [raw]. *)
Definition singleItemSection (raw : string) : option PRTemplateSection :=
  Some (mkSection (Some
    [MarkdownItem.mk (Some "list") (Some raw)
       (Some [ListItem.mk false (Some raw)])])).

(** The outcome of the issues check on the body [bs], given the references
    [refs] of the raw text of its first list-typed block. *)
Definition issuesOutcome (bs : list MarkdownItem.t) (refs : list string)
           (p : Process) : Outcome unit :=
  match firstListBlock bs with
  | None => failsWith MissingIssueList p
  | Some issuesCheckList =>
      match MarkdownItem.raw issuesCheckList with
      | None => failsWith MissingIssueList p
      | Some raw =>
          if Str.isEmpty raw then failsWith MissingIssueList p
          else issuesVerdict raw refs p
      end
  end.

(** [refs] lists the references of the raw text of the first list-typed
    block of [bs], when there is such a text. *)
Definition referencesOf (bs : list MarkdownItem.t) (refs : list string)
  : Prop :=
  match firstListBlock bs with
  | Some issuesCheckList =>
      match MarkdownItem.raw issuesCheckList with
      | Some raw => Extracts raw refs
      | None => True
      end
  | None => True
  end.

(** Sample inputs. *)
Definition textBlock (raw : string) : MarkdownItem.t :=
  MarkdownItem.mk (Some "text") (Some raw) None.

Definition listBlock (raw : string) (items : list ListItem.t)
  : MarkdownItem.t :=
  MarkdownItem.mk (Some "list") (Some raw) (Some items).

Definition sampleIssuesBody : list MarkdownItem.t :=
  [textBlock "Resolved issues"; listBlock "Fixes #42 and #108" [];
   listBlock "#7" []].

Definition sampleDescription (checked : bool) : PrDescription :=
  mkPrDescription
    (Some (mkSection (Some
       [listBlock "- Fixed the login bug"
          [ListItem.mk checked (Some "Fixed the login bug");
           ListItem.mk checked (Some "<describe change here>")]])))
    (Some (mkSection (Some sampleIssuesBody)))
    (Some (mkSection (Some
       [listBlock "- Users can log in again"
          [ListItem.mk checked (Some "Users can log in again")]]))).

Definition absentRawQaBody : list MarkdownItem.t :=
  [MarkdownItem.mk (Some "list") (Some "- [ ]")
     (Some [ListItem.mk false None])].

From Stdlib Require Import NArith DecimalString DecimalN.

(* ------------------------------------------------------------------ *)
(** ** Further vocabulary: reports, frames and text patterns            *)
(* ------------------------------------------------------------------ *)

(** A section whose [bodies] is the array [bs]. *)
Definition sectionWith (bs : list MarkdownItem.t) : option PRTemplateSection :=
  Some (mkSection (Some bs)).

(** What a validator writes when it runs on its own, in a fresh process. *)
Definition report (v : Validator) (s : option PRTemplateSection)
  : list Line :=
  stdout (processOf (validate v s initial)).

Definition throws {A} (o : Outcome A) : bool :=
  match o with
  | Thrown _ _ => true
  | Returned _ _ => false
  end.

(** The outcome [o] of an invocation in a fresh process, replayed after
    [p]: its lines follow those of [p], and the exit code of [p] stands
    unless the invocation set one. *)
Definition frame {A} (p : Process) (o : Outcome A) : Outcome A :=
  let after q :=
    mkProcess (stdout p ++ stdout q)
              (match exitCode q with
               | Some n => Some n
               | None => exitCode p
               end) in
  match o with
  | Returned a q => Returned a (after q)
  | Thrown e q => Thrown e (after q)
  end.

(** The first item of the first list-typed block is there and has no raw
    text at all. *)
Definition qaCriteriaRawAbsent (s : option PRTemplateSection) : bool :=
  match optBodies s with
  | None => false
  | Some bs =>
      match firstListBlock bs with
      | Some {| MarkdownItem.items := Some ({| ListItem.raw := None |} :: _) |} =>
          true
      | _ => false
      end
  end.

(** The text holds a [#] immediately followed by a digit. *)
Definition HasReference (raw : string) : Prop :=
  exists pre c post,
    raw = pre ++ String Regex.HASH (String c post)
    /\ Str.isDigit c = true.

(** The text holds the three characters n, / and a in a row, the letters
    in either case. *)
Definition MentionsNA (raw : string) : Prop :=
  exists pre a c post,
    raw = pre ++ String a (String "/" (String c post))
    /\ (a = "n"%char \/ a = "N"%char)
    /\ (c = "a"%char \/ c = "A"%char).

(** The list-typed block [blk] with nothing but its raw text. *)
Definition rawOnly (blk : MarkdownItem.t) : MarkdownItem.t :=
  MarkdownItem.mk (Some "list") (MarkdownItem.raw blk) None.

(** The list-typed block [blk] with nothing but its first item. *)
Definition firstItemOnly (blk : MarkdownItem.t) : MarkdownItem.t :=
  MarkdownItem.mk (Some "list") None
                  (option_map (firstn 1) (MarkdownItem.items blk)).

(** No block of [bs] is list-typed. *)
Definition noListBlock (bs : list MarkdownItem.t) : bool :=
  forallb (fun b => negb (isList b)) bs.

(** A list item the first filter of the description check drops for what
    its raw text is: absent, nothing but white space, or holding an
    angle-bracket pair somewhere. *)
Definition Boilerplate (item : ListItem.t) : Prop :=
  match ListItem.raw item with
  | None => True
  | Some r => allChars Str.isWhiteSpace r = true \/ MatchesPlaceholder r
  end.

(** All the list items of [bs] gathered in one list-typed block. *)
Definition mergedList (bs : list MarkdownItem.t) : MarkdownItem.t :=
  MarkdownItem.mk (Some "list") None (Some (allListItems bs)).

(** More sample inputs. *)
Definition genericTypeBody : list MarkdownItem.t :=
  [listBlock "- Return Promise<void> from the deploy client"
     [ListItem.mk true (Some "Return Promise<void> from the deploy client");
      ListItem.mk false (Some "   ")]].

Definition loginFixBody : list MarkdownItem.t :=
  [listBlock "- Fixed the login bug"
     [ListItem.mk true (Some "Fixed the login bug")]].

Definition aroundBlock : MarkdownItem.t :=
  listBlock "Nothing to link, see the notes in/around the wiki" [].

(* ------------------------------------------------------------------ *)
(** ** The generated API services (cron jobs and services)              *)
(* ------------------------------------------------------------------ *)

(** The services call the HTTP methods of their base class, which is not
    part of these sources: a call is modelled by the request it hands
    over.  A method is [async]: an exception thrown before the call is the
    rejection of the promise it returns.  Ids are numbers; the model takes
    the non-negative integers, which [String] prints in decimal as long as
    they are below 2^53. *)

Module Url.

(** [String(n)] for a non-negative integer [n]. *)
Definition Number_toString (n : N) : string :=
  NilEmpty.string_of_uint (N.to_uint n).

(** The characters [encodeURIComponent] leaves as they are. *)
Definition isUnreserved (c : ascii) : bool :=
  let n := Str.code c in
  (((65 <=? n) && (n <=? 90)) || ((97 <=? n) && (n <=? 122))
   || ((48 <=? n) && (n <=? 57)))%nat
  || Str.includes "-_.!~*'()" (String c EmptyString).

Definition hexDigit (n : nat) : ascii :=
  if (n <? 10)%nat then ascii_of_nat (48 + n) else ascii_of_nat (55 + n).

(** One byte as a percent escape, with upper-case hexadecimal digits. *)
Definition percent (byte : nat) : string :=
  String "%" (String (hexDigit (byte / 16))
                     (String (hexDigit (byte mod 16)) EmptyString)).

(** A code unit below 128 is one UTF-8 byte, one from 128 to 255 is two. *)
Definition encodeChar (c : ascii) : string :=
  let n := Str.code c in
  if isUnreserved c then String c EmptyString
  else if (n <? 128)%nat then percent n
  else percent (192 + n / 64) ++ percent (128 + n mod 64).

(** [encodeURIComponent] *)
Fixpoint encodeURIComponent (s : string) : string :=
  match s with
  | EmptyString => EmptyString
  | String c r => encodeChar c ++ encodeURIComponent r
  end.

(** [s.replace(pattern, replacement)] for a string pattern: the first
    occurrence is replaced.  The replacement is inserted as it is; the
    callers pass the result of [encodeURIComponent], which holds no
    dollar sign. *)
Fixpoint replace (s pattern replacement : string) : string :=
  if Str.startsWith pattern s
  then replacement ++ dropChars (String.length pattern) s
  else
    match s with
    | EmptyString => EmptyString
    | String c r => String c (replace r pattern replacement)
    end.

End Url.

Inductive HttpVerb : Type := DELETE | GET | POST.

(** A call of [this.delete], [this.get] or [this.post]: the path and, for
    [post], the data passed along. *)
Record Request (Body : Type) : Type := mkRequest {
  verb : HttpVerb;
  path : string;
  data : option Body
}.
Arguments mkRequest {Body} verb path data.
Arguments verb {Body} r.
Arguments path {Body} r.
Arguments data {Body} r.

(** [new ArgumentNullException(param, method)] *)
Inductive ApiException : Type :=
| ArgumentNullException (param method : string).

(** What a service method does: it rejects, or it makes one request. *)
Inductive Call (Body : Type) : Type :=
| Rejects (e : ApiException)
| Sends (r : Request Body).
Arguments Rejects {Body} e.
Arguments Sends {Body} r.

Module CronJobsApiService.

Definition deleteCronJob {Body} (taskId : option N) : Call Body :=
  match taskId with
  | None => Rejects (ArgumentNullException "taskId" "deleteCronJob")
  | Some taskId =>
      Sends (mkRequest DELETE
               (Url.replace "/tasks/{task_id}" ("{" ++ "task_id" ++ "}")
                  (Url.encodeURIComponent (Url.Number_toString taskId)))
               None)
  end.

Definition getCronJob {Body} (taskId : option N) : Call Body :=
  match taskId with
  | None => Rejects (ArgumentNullException "taskId" "getCronJob")
  | Some taskId =>
      Sends (mkRequest GET
               (Url.replace "/tasks/{task_id}" ("{" ++ "task_id" ++ "}")
                  (Url.encodeURIComponent (Url.Number_toString taskId)))
               None)
  end.

End CronJobsApiService.

Module ServicesApiService.

Definition deleteService {Body} (serviceId : option N) : Call Body :=
  match serviceId with
  | None => Rejects (ArgumentNullException "serviceId" "deleteService")
  | Some serviceId =>
      Sends (mkRequest DELETE
               (Url.replace "/services/{service_id}"
                  ("{" ++ "service_id" ++ "}")
                  (Url.encodeURIComponent (Url.Number_toString serviceId)))
               None)
  end.

Definition getService {Body} (serviceId : option N) : Call Body :=
  match serviceId with
  | None => Rejects (ArgumentNullException "serviceId" "getService")
  | Some serviceId =>
      Sends (mkRequest GET
               (Url.replace "/services/{service_id}"
                  ("{" ++ "service_id" ++ "}")
                  (Url.encodeURIComponent (Url.Number_toString serviceId)))
               None)
  end.

Definition reloadService {Body} (serviceId : option N)
           (extraBodyParams : option Body) : Call Body :=
  match serviceId with
  | None => Rejects (ArgumentNullException "serviceId" "reloadService")
  | Some serviceId =>
      Sends (mkRequest POST
               (Url.replace "/services/{service_id}/reload"
                  ("{" ++ "service_id" ++ "}")
                  (Url.encodeURIComponent (Url.Number_toString serviceId)))
               extraBodyParams)
  end.

Definition restartService {Body} (serviceId : option N)
           (extraBodyParams : option Body) : Call Body :=
  match serviceId with
  | None => Rejects (ArgumentNullException "serviceId" "restartService")
  | Some serviceId =>
      Sends (mkRequest POST
               (Url.replace "/services/{service_id}/restart"
                  ("{" ++ "service_id" ++ "}")
                  (Url.encodeURIComponent (Url.Number_toString serviceId)))
               extraBodyParams)
  end.

Definition startService {Body} (serviceId : option N)
           (extraBodyParams : option Body) : Call Body :=
  match serviceId with
  | None => Rejects (ArgumentNullException "serviceId" "startService")
  | Some serviceId =>
      Sends (mkRequest POST
               (Url.replace "/services/{service_id}/start"
                  ("{" ++ "service_id" ++ "}")
                  (Url.encodeURIComponent (Url.Number_toString serviceId)))
               extraBodyParams)
  end.

Definition stopService {Body} (serviceId : option N)
           (extraBodyParams : option Body) : Call Body :=
  match serviceId with
  | None => Rejects (ArgumentNullException "serviceId" "stopService")
  | Some serviceId =>
      Sends (mkRequest POST
               (Url.replace "/services/{service_id}/stop"
                  ("{" ++ "service_id" ++ "}")
                  (Url.encodeURIComponent (Url.Number_toString serviceId)))
               extraBodyParams)
  end.

End ServicesApiService.

(** The eight operations of the two services, and the call each makes. *)
Inductive Operation : Type :=
| DeleteCronJob | GetCronJob
| DeleteService | GetService
| ReloadService | RestartService | StartService | StopService.

Definition perform {Body} (op : Operation) (id : option N)
           (extraBodyParams : option Body) : Call Body :=
  match op with
  | DeleteCronJob => CronJobsApiService.deleteCronJob id
  | GetCronJob => CronJobsApiService.getCronJob id
  | DeleteService => ServicesApiService.deleteService id
  | GetService => ServicesApiService.getService id
  | ReloadService => ServicesApiService.reloadService id extraBodyParams
  | RestartService => ServicesApiService.restartService id extraBodyParams
  | StartService => ServicesApiService.startService id extraBodyParams
  | StopService => ServicesApiService.stopService id extraBodyParams
  end.

(** The verb and the path each operation is meant for, with the id in
    decimal in place of the placeholder. *)
Definition verbOf (op : Operation) : HttpVerb :=
  match op with
  | DeleteCronJob | DeleteService => DELETE
  | GetCronJob | GetService => GET
  | ReloadService | RestartService | StartService | StopService => POST
  end.

Definition pathOf (op : Operation) (id : N) : string :=
  match op with
  | DeleteCronJob | GetCronJob => "/tasks/" ++ Url.Number_toString id
  | DeleteService | GetService => "/services/" ++ Url.Number_toString id
  | ReloadService => "/services/" ++ Url.Number_toString id ++ "/reload"
  | RestartService => "/services/" ++ Url.Number_toString id ++ "/restart"
  | StartService => "/services/" ++ Url.Number_toString id ++ "/start"
  | StopService => "/services/" ++ Url.Number_toString id ++ "/stop"
  end.

(** The data an operation passes along: the [post] calls hand over their
    optional argument, the others have none. *)
Definition dataOf {Body} (op : Operation) (extraBodyParams : option Body)
  : option Body :=
  match verbOf op with
  | POST => extraBodyParams
  | _ => None
  end.

(** Ids that [String] prints in plain decimal. *)
Definition isSafeId (id : N) : Prop := (id < 2 ^ 53)%N.

(** The first item of the first list-typed block has a raw text that is
    the empty string or that trims to the template heading. *)
Definition qaFallsThrough (s : option PRTemplateSection) : bool :=
  match optBodies s with
  | None => false
  | Some bs =>
      match firstListBlock bs with
      | Some {| MarkdownItem.items := Some ({| ListItem.raw := Some r |} :: _) |} =>
          Str.isEmpty r || String.eqb (Str.trim r) SUCCESS_CRITERIA_TITLE
      | _ => false
      end
  end.

(* ------------------------------------------------------------------ *)
(** ** Basic facts: the monad, [fail] and [pass]                        *)
(* ------------------------------------------------------------------ *)

Lemma firstList_find (bs : list MarkdownItem.t) :
  firstList bs = firstListBlock bs.
Proof.
  unfold firstList, firstListBlock.
  induction bs as [|b bs IH]; simpl; [reflexivity|].
  destruct (isList b); [reflexivity | exact IH].
Qed.

Lemma written_app (p : Process) (ls : list Line) (e : option Z) (o : Outcome unit) :
  processOf o = mkProcess (stdout p ++ ls) e -> written p o = ls.
Proof.
  intros H. unfold written. rewrite H. simpl. clear H.
  induction (stdout p) as [|x xs IH]; simpl; [reflexivity | exact IH].
Qed.

(* ------------------------------------------------------------------ *)
(** ** The Quality Assurance check, case by case                        *)
(* ------------------------------------------------------------------ *)

Lemma validateQaSection_cases (bs : list MarkdownItem.t) (p : Process) :
  validateQaSection (Some (mkSection (Some bs))) p =
  match firstListBlock bs with
  | None => failsWith MissingChecklist p
  | Some qaCheckList =>
      match MarkdownItem.items qaCheckList with
      | None | Some [] => failsWith EmptyChecklist p
      | Some (successCriteria :: _) => qaOnCriteria successCriteria p
      end
  end.
Proof.
  unfold validateQaSection. simpl. rewrite firstList_find.
  destruct (firstListBlock bs) as [blk|]; [|reflexivity].
  destruct (MarkdownItem.items blk) as [[|it rest]|]; try reflexivity.
  unfold qaOnCriteria.
  destruct (ListItem.raw it) as [r|] eqn:Hr; [|reflexivity].
  destruct r as [|c r].
  - unfold bind, fail, pass, console_log, set_exitCode, ret. cbn.
    rewrite <- app_assoc. reflexivity.
  - cbn [whenTruthy Str.isEmpty].
    unfold bind at 1. cbn [ret].
    unfold bind at 1. cbn [raw_trim ret].
    unfold bind at 1.
    destruct (String.eqb (Str.trim (String c r)) SUCCESS_CRITERIA_TITLE);
      cbn [ret display]; [|reflexivity].
    unfold fail, pass, bind, console_log, set_exitCode, PlaceholderCriteria.
    cbn [stdout exitCode]. rewrite <- app_assoc. reflexivity.
Qed.

(* ------------------------------------------------------------------ *)
(** ** The placeholder pattern                                          *)
(* ------------------------------------------------------------------ *)

Lemma placeholderClose_split (s : string) :
  Regex.placeholderClose s = true ->
  exists m post,
    s = m ++ String Regex.GT post
    /\ allChars (fun c => negb (Ascii.eqb c Regex.GT)) m = true.
Proof.
  induction s as [|c r IH]; simpl; [discriminate|].
  destruct (Ascii.eqb c Regex.GT) eqn:E.
  - intros _. apply Ascii.eqb_eq in E. subst c.
    exists EmptyString, r. split; reflexivity.
  - intros H. destruct (IH H) as (m & post & -> & Hm).
    exists (String c m), post. simpl. rewrite E, Hm. split; reflexivity.
Qed.

Lemma placeholderClose_app (m post : string) :
  Regex.placeholderClose (m ++ String Regex.GT post) = true.
Proof.
  induction m as [|c m IH]; simpl; [reflexivity|].
  destruct (Ascii.eqb c Regex.GT); [reflexivity | exact IH].
Qed.

Lemma placeholderRegex_test_spec (s : string) :
  Regex.placeholderRegex_test s = true <-> MatchesPlaceholder s.
Proof.
  split.
  - induction s as [|c r IH]; simpl; [discriminate|].
    intros H. apply orb_true_iff in H. destruct H as [H|H].
    + destruct r as [|b r']; [discriminate|].
      apply andb_true_iff in H. destruct H as [H Hc].
      apply andb_true_iff in H. destruct H as [Ha Hb].
      apply Ascii.eqb_eq in Ha. subst c.
      destruct (placeholderClose_split _ Hc) as (m & post & -> & Hm).
      exists EmptyString, (String b m), post. simpl.
      rewrite Hb, Hm. repeat split; discriminate.
    + destruct (IH H) as (pre & mid & post & -> & Hne & Hm).
      exists (String c pre), mid, post. repeat split; assumption.
  - intros (pre & mid & post & -> & Hne & Hm).
    induction pre as [|c pre IH].
    + destruct mid as [|b m]; [congruence|].
      simpl in Hm. apply andb_true_iff in Hm. destruct Hm as [Hb Hm].
      cbn [append Regex.placeholderRegex_test Regex.placeholderAt].
      rewrite Ascii.eqb_refl, Hb, placeholderClose_app. reflexivity.
    + cbn [append Regex.placeholderRegex_test]. rewrite IH.
      apply orb_true_r.
Qed.

(* ------------------------------------------------------------------ *)
(** ** The Description of Changes check                                 *)
(* ------------------------------------------------------------------ *)

Lemma isEmpty_length (s : string) :
  Str.isEmpty s = negb (0 <? String.length s)%nat.
Proof. destruct s; reflexivity. Qed.

Lemma isConcreteChange_spec (item : ListItem.t) :
  isConcreteChange item = negb (isBoilerplate item).
Proof.
  unfold isConcreteChange, isBoilerplate, trimmedRaw.
  destruct (ListItem.raw item) as [[|c r]|]; try reflexivity.
  cbn [whenTruthy Str.isEmpty display].
  rewrite isEmpty_length, negb_orb, negb_involutive. reflexivity.
Qed.

Lemma isConcreteChange_raw (item : ListItem.t) :
  isConcreteChange item = true -> ListItem.raw item <> None.
Proof.
  unfold isConcreteChange. destruct (ListItem.raw item); simpl; congruence.
Qed.

(** The second filter never dereferences an absent text: every item that
    reaches it went through the first one. *)
Lemma filterJs_isMeaningful (l : list ListItem.t) (p : Process) :
  Forall (fun item => ListItem.raw item <> None) l ->
  filterJs isMeaningful l p =
  Returned
    (filter (fun item => (10 <? String.length (trimmedRaw item))%nat) l) p.
Proof.
  induction 1 as [|item l Hitem _ IH]; [reflexivity|].
  cbn [filterJs filter].
  destruct (ListItem.raw item) as [r|] eqn:E; [|congruence].
  assert (Hm : isMeaningful item p
               = Returned (10 <? String.length (trimmedRaw item))%nat p).
  { unfold isMeaningful, trimmedRaw, bind. rewrite E. reflexivity. }
  unfold bind at 1. rewrite Hm.
  unfold bind at 1. rewrite IH. reflexivity.
Qed.

Lemma concreteItems_filter (bs : list MarkdownItem.t) :
  filter isConcreteChange (flat_map itemsOrEmpty (filter isList bs))
  = concreteItems bs.
Proof.
  unfold concreteItems, allListItems.
  apply filter_ext. intros item. apply isConcreteChange_spec.
Qed.

Lemma concreteItems_raw (bs : list MarkdownItem.t) :
  Forall (fun item => ListItem.raw item <> None) (concreteItems bs).
Proof.
  rewrite <- concreteItems_filter. apply Forall_forall.
  intros item Hin. apply filter_In in Hin.
  apply isConcreteChange_raw, Hin.
Qed.

Lemma validateDescriptionOfChanges_cases
      (bs : list MarkdownItem.t) (p : Process) :
  validateDescriptionOfChanges (Some (mkSection (Some bs))) p =
  match concreteItems bs with
  | [] => failsWith NoConcreteChanges p
  | _ :: _ =>
      match meaningfulItems bs with
      | [] => failsWith ChangesNotMeaningful p
      | _ :: _ => passesWith "Description of Changes" (descriptionReport bs) p
      end
  end.
Proof.
  unfold validateDescriptionOfChanges. cbn [optBodies bodies].
  rewrite concreteItems_filter.
  unfold descriptionReport, meaningfulItems.
  pose proof (concreteItems_raw bs) as Hraw.
  destruct (concreteItems bs) as [|i l] eqn:E; [reflexivity|].
  cbn [List.length Nat.eqb]. unfold bind at 1.
  rewrite (filterJs_isMeaningful _ p Hraw).
  destruct (filter _ (i :: l)); reflexivity.
Qed.

(* ------------------------------------------------------------------ *)
(** ** Issue references and the N/A marker                              *)
(* ------------------------------------------------------------------ *)

Lemma append_empty_r (s : string) : s ++ EmptyString = s.
Proof. induction s as [|c s IH]; simpl; [reflexivity | now rewrite IH]. Qed.

Lemma isEmpty_true (s : string) : Str.isEmpty s = true -> s = EmptyString.
Proof. destruct s; [reflexivity | discriminate]. Qed.

Lemma isEmpty_false (s : string) : Str.isEmpty s = false -> s <> EmptyString.
Proof. destruct s; [discriminate | discriminate]. Qed.

Lemma digits_split (r : string) :
  r = Regex.digits r ++ dropChars (String.length (Regex.digits r)) r.
Proof.
  induction r as [|c r IH]; [reflexivity|].
  simpl. destruct (Str.isDigit c); simpl; [f_equal; exact IH | reflexivity].
Qed.

Lemma Extracts_prepend (c : ascii) (r : string) (l : list string) :
  (c = Regex.HASH -> Regex.digits r = EmptyString) ->
  Extracts r l -> Extracts (String c r) l.
Proof.
  intros Hc H. inversion H as [g Hg | g d rest l' Hg Hd Hmax Hrest]; subst.
  - apply Extracts_nil. simpl. split; [|exact Hg].
    rewrite append_empty_r. exact Hc.
  - change (Extracts (String c g ++ String Regex.HASH (d ++ rest))
                     (String Regex.HASH d :: l')).
    apply Extracts_cons; try assumption.
    simpl. split; assumption.
Qed.

Lemma matchAll_Extracts (s : string) :
  forall skip, Extracts (dropChars skip s) (Regex.matchAll skip s).
Proof.
  induction s as [|c r IH]; intros skip.
  - destruct skip; apply Extracts_nil; exact I.
  - destruct skip as [|k]; [|apply IH].
    cbn [dropChars Regex.matchAll].
    destruct (Ascii.eqb c Regex.HASH) eqn:Ec.
    + apply Ascii.eqb_eq in Ec. subst c.
      destruct (Str.isEmpty (Regex.digits r)) eqn:Ed.
      * apply Extracts_prepend; [|apply (IH 0)].
        intros _. now apply isEmpty_true.
      * pose proof (IH (String.length (Regex.digits r))) as Hrest.
        pose proof (digits_split r) as Hsplit.
        set (d := Regex.digits r) in *.
        set (rest := dropChars (String.length d) r) in *.
        rewrite Hsplit at 1.
        change (Extracts (EmptyString ++ String Regex.HASH (d ++ rest))
                         (String Regex.HASH d :: Regex.matchAll (String.length d) r)).
        apply Extracts_cons.
        -- exact I.
        -- now apply isEmpty_false.
        -- rewrite <- Hsplit. reflexivity.
        -- exact Hrest.
    + apply Extracts_prepend; [|apply (IH 0)].
      intros ->. discriminate.
Qed.

Lemma matchAll_gap (g rest : string) :
  noReference g rest ->
  Regex.matchAll 0 (g ++ rest) = Regex.matchAll 0 rest.
Proof.
  induction g as [|c g IH]; [reflexivity|].
  intros [Hc Hg]. cbn [append Regex.matchAll].
  destruct (Ascii.eqb c Regex.HASH) eqn:Ec; [|exact (IH Hg)].
  apply Ascii.eqb_eq in Ec. rewrite (Hc Ec). exact (IH Hg).
Qed.

Lemma matchAll_skip (d rest : string) :
  Regex.matchAll (String.length d) (d ++ rest) = Regex.matchAll 0 rest.
Proof. induction d as [|c d IH]; [reflexivity | exact IH]. Qed.

Lemma Extracts_unique (s : string) (l : list string) :
  Extracts s l -> l = Regex.GITHUB_ISSUE_FORMAT_match s.
Proof.
  unfold Regex.GITHUB_ISSUE_FORMAT_match.
  induction 1 as [g Hg | g d rest l Hg Hd Hmax _ IH].
  - rewrite <- (append_empty_r g) at 1.
    rewrite (matchAll_gap _ _ Hg). reflexivity.
  - rewrite (matchAll_gap _ _ Hg). cbn [Regex.matchAll].
    rewrite Ascii.eqb_refl, Hmax.
    destruct d as [|c d]; [congruence|].
    cbn [Str.isEmpty]. rewrite matchAll_skip, <- IH. reflexivity.
Qed.

Lemma GITHUB_ISSUE_FORMAT_match_Extracts (s : string) :
  Extracts s (Regex.GITHUB_ISSUE_FORMAT_match s).
Proof. exact (matchAll_Extracts s 0). Qed.

Lemma digits_idempotent (d rest : string) :
  Regex.digits (d ++ rest) = d -> Regex.digits d = d.
Proof.
  revert rest. induction d as [|c d IH]; intros rest; [reflexivity|].
  simpl. destruct (Str.isDigit c); [|discriminate].
  intros H. injection H as H. now rewrite (IH rest H).
Qed.

(** Everything extracted reads [#] followed by one or more digits. *)
Lemma Extracts_references (s : string) (l : list string) :
  Extracts s l -> Forall isIssueReference l.
Proof.
  induction 1 as [g Hg | g d rest l Hg Hd Hmax _ IH]; constructor.
  - exists d. repeat split; [exact Hd | exact (digits_idempotent _ _ Hmax)].
  - exact IH.
Qed.

Lemma lowerChar_n (c : ascii) :
  Ascii.eqb "n" (Str.lowerChar c) = Ascii.eqb c "n" || Ascii.eqb c "N".
Proof. destruct c as [[] [] [] [] [] [] [] []]; reflexivity. Qed.

Lemma lowerChar_slash (c : ascii) :
  Ascii.eqb "/" (Str.lowerChar c) = Ascii.eqb c "/".
Proof. destruct c as [[] [] [] [] [] [] [] []]; reflexivity. Qed.

Lemma lowerChar_a (c : ascii) :
  Ascii.eqb "a" (Str.lowerChar c) = Ascii.eqb c "a" || Ascii.eqb c "A".
Proof. destruct c as [[] [] [] [] [] [] [] []]; reflexivity. Qed.

(** [raw.toLowerCase().includes("n/a")] finds the marker whatever the case
    of its letters. *)
Lemma includes_toLowerCase_NA (raw : string) :
  Str.includes (Str.toLowerCase raw) "n/a" = mentionsNA raw.
Proof.
  induction raw as [|a r IH]; [reflexivity|].
  cbn [Str.toLowerCase Str.includes]. rewrite IH.
  destruct r as [|b [|c r']].
  - cbn [Str.toLowerCase Str.startsWith mentionsNA].
    rewrite ?andb_false_r. reflexivity.
  - cbn [Str.toLowerCase Str.startsWith mentionsNA].
    rewrite ?andb_false_r. reflexivity.
  - cbn [Str.toLowerCase Str.startsWith mentionsNA].
    rewrite lowerChar_n, lowerChar_slash, lowerChar_a, andb_true_r.
    rewrite andb_assoc. reflexivity.
Qed.

(* ------------------------------------------------------------------ *)
(** ** The GitHub Issues check                                          *)
(* ------------------------------------------------------------------ *)

Lemma validateResolvedIssuesSection_cases
      (bs : list MarkdownItem.t) (p : Process) :
  validateResolvedIssuesSection (Some (mkSection (Some bs))) p =
  match firstListBlock bs with
  | None => failsWith MissingIssueList p
  | Some issuesCheckList =>
      match MarkdownItem.raw issuesCheckList with
      | None => failsWith MissingIssueList p
      | Some raw =>
          if Str.isEmpty raw then failsWith MissingIssueList p
          else issuesVerdict raw (Regex.GITHUB_ISSUE_FORMAT_match raw) p
      end
  end.
Proof.
  unfold validateResolvedIssuesSection. cbn [optBodies bodies].
  rewrite firstList_find.
  destruct (firstListBlock bs) as [blk|]; [|reflexivity].
  cbn [optRaw]. destruct (MarkdownItem.raw blk) as [raw|]; [|reflexivity].
  cbn [whenTruthy]. destruct (Str.isEmpty raw); [reflexivity|].
  unfold issuesVerdict. rewrite includes_toLowerCase_NA.
  destruct (Regex.GITHUB_ISSUE_FORMAT_match raw) as [|m ms];
    cbn [List.length Nat.eqb Nat.ltb Nat.leb negb andb orb issuesReport].
  - destruct (mentionsNA raw); reflexivity.
  - reflexivity.
Qed.

(* ------------------------------------------------------------------ *)
(** ** One outcome per validator                                        *)
(* ------------------------------------------------------------------ *)

Lemma validate_missing (v : Validator) (s : option PRTemplateSection)
      (p : Process) :
  optBodies s = None -> validate v s p = failsWith (MissingSection v) p.
Proof.
  intros H. destruct v; cbn [validate];
    [unfold validateDescriptionOfChanges
    |unfold validateResolvedIssuesSection
    |unfold validateQaSection]; rewrite H; reflexivity.
Qed.

Lemma optBodies_cases (s : option PRTemplateSection) :
  optBodies s = None \/ exists bs, s = Some (mkSection (Some bs)).
Proof.
  destruct s as [[[bs|]]|]; [right; now exists bs | left | left]; reflexivity.
Qed.

(** Every invocation either passes, writing one pass line and leaving the
    exit code alone, or leaves the exit code at 1. *)
Lemma validate_dichotomy (v : Validator) (s : option PRTemplateSection)
      (p : Process) :
  (sectionPassed v s = true
   /\ exists f m, validate v s p = passesWith f m p)
  \/ (sectionPassed v s = false
      /\ exitCode (processOf (validate v s p)) = Some 1%Z).
Proof.
  destruct (optBodies_cases s) as [Hnone | [bs ->]].
  - right. unfold sectionPassed.
    rewrite !(validate_missing v s _ Hnone). split; [|reflexivity].
    destruct v; reflexivity.
  - unfold sectionPassed. destruct v; cbn [validate].
    + rewrite !validateDescriptionOfChanges_cases.
      destruct (concreteItems bs); [right; split; reflexivity|].
      destruct (meaningfulItems bs); [right; split; reflexivity|].
      left. split; [reflexivity | eauto].
    + rewrite !validateResolvedIssuesSection_cases.
      destruct (firstListBlock bs) as [blk|]; [|right; split; reflexivity].
      destruct (MarkdownItem.raw blk) as [raw|]; [|right; split; reflexivity].
      destruct (Str.isEmpty raw); [right; split; reflexivity|].
      unfold issuesVerdict.
      destruct (negb _ || mentionsNA raw);
        [left; split; [reflexivity | eauto] | right; split; reflexivity].
    + rewrite !validateQaSection_cases.
      destruct (firstListBlock bs) as [blk|]; [|right; split; reflexivity].
      destruct (MarkdownItem.items blk) as [[|it rest]|];
        try (right; split; reflexivity).
      unfold qaOnCriteria.
      destruct (ListItem.raw it) as [r|]; [|right; split; reflexivity].
      destruct (Str.isEmpty r); [right; split; reflexivity|].
      destruct (String.eqb (Str.trim r) SUCCESS_CRITERIA_TITLE);
        [right; split; reflexivity | left; split; [reflexivity | eauto]].
Qed.

(** A section check passes exactly under the pass conditions of the
    specification. *)
Lemma sectionPassed_description (s : option PRTemplateSection) :
  sectionPassed DescriptionOfChanges s = descriptionWellFormed s.
Proof.
  unfold sectionPassed, descriptionWellFormed.
  destruct (optBodies_cases s) as [Hnone | [bs ->]].
  - rewrite (validate_missing _ s _ Hnone), Hnone. reflexivity.
  - cbn [validate optBodies bodies].
    rewrite validateDescriptionOfChanges_cases. unfold meaningfulItems.
    destruct (concreteItems bs); [reflexivity|].
    destruct (filter _ (_ :: _)); reflexivity.
Qed.

Lemma sectionPassed_issues (s : option PRTemplateSection) :
  sectionPassed ResolvedIssues s = issuesWellFormed s.
Proof.
  unfold sectionPassed, issuesWellFormed.
  destruct (optBodies_cases s) as [Hnone | [bs ->]].
  - rewrite (validate_missing _ s _ Hnone), Hnone. reflexivity.
  - cbn [validate optBodies bodies].
    rewrite validateResolvedIssuesSection_cases.
    destruct (firstListBlock bs) as [[ty [raw|] its]|]; try reflexivity.
    cbn [MarkdownItem.raw]. destruct (Str.isEmpty raw); [reflexivity|].
    unfold issuesVerdict. cbn [negb andb].
    destruct (negb _ || mentionsNA raw); reflexivity.
Qed.

Lemma sectionPassed_qa (s : option PRTemplateSection) :
  sectionPassed QualityAssurance s = qaWellFormed s.
Proof.
  unfold sectionPassed, qaWellFormed.
  destruct (optBodies_cases s) as [Hnone | [bs ->]].
  - rewrite (validate_missing _ s _ Hnone), Hnone. reflexivity.
  - cbn [validate optBodies bodies].
    rewrite validateQaSection_cases.
    destruct (firstListBlock bs) as [[ty raw [[|[ck [r|]] rest]|]]|];
      try reflexivity.
    cbn [MarkdownItem.items]. unfold qaOnCriteria. cbn [ListItem.raw].
    destruct (Str.isEmpty r); [reflexivity|]. cbn [negb andb].
    destruct (String.eqb (Str.trim r) SUCCESS_CRITERIA_TITLE); reflexivity.
Qed.

Lemma exitStatus_failed {A} (o : Outcome A) :
  exitCode (processOf o) = Some 1%Z -> exitStatus o = 1%Z.
Proof. destruct o as [a q|e q]; simpl; [intros ->|]; reflexivity. Qed.

(** Once the exit code is 1 it stays there through any validator. *)
Lemma validate_keeps_failure (v : Validator) (s : option PRTemplateSection)
      (p : Process) :
  exitCode p = Some 1%Z ->
  exitCode (processOf (validate v s p)) = Some 1%Z.
Proof.
  intros Hp.
  destruct (validate_dichotomy v s p) as [[_ (f & m & ->)] | [_ H]];
    [exact Hp | exact H].
Qed.

Lemma bind_failed {A B} (m : Js A) (k : A -> Js B) (p : Process) :
  exitCode (processOf (m p)) = Some 1%Z ->
  (forall a q, exitCode q = Some 1%Z ->
               exitCode (processOf (k a q)) = Some 1%Z) ->
  exitCode (processOf (bind m k p)) = Some 1%Z.
Proof.
  unfold bind. intros Hm Hk. destruct (m p) as [a q|e q]; simpl in *.
  - apply Hk, Hm.
  - exact Hm.
Qed.

Lemma run_status (d : PrDescription) :
  (exitStatus (run d) =? 0)%Z
  = sectionPassed DescriptionOfChanges (Description_of_changes d)
    && sectionPassed ResolvedIssues (GitHub_issues_resolved_by_this_PR d)
    && sectionPassed QualityAssurance (Quality_Assurance d).
Proof.
  unfold run, main.
  change validateDescriptionOfChanges with (validate DescriptionOfChanges).
  change validateResolvedIssuesSection with (validate ResolvedIssues).
  change validateQaSection with (validate QualityAssurance).
  destruct (validate_dichotomy DescriptionOfChanges
              (Description_of_changes d) initial)
    as [[-> (f1 & m1 & H1)] | [-> H1]].
  - unfold bind at 1. rewrite H1. cbn [passesWith andb].
    set (p1 := mkProcess _ _).
    destruct (validate_dichotomy ResolvedIssues
                (GitHub_issues_resolved_by_this_PR d) p1)
      as [[-> (f2 & m2 & H2)] | [-> H2]].
    + unfold bind at 1. rewrite H2. cbn [passesWith andb].
      set (p2 := mkProcess _ _).
      destruct (validate_dichotomy QualityAssurance (Quality_Assurance d) p2)
        as [[-> (f3 & m3 & H3)] | [-> H3]].
      * rewrite H3. reflexivity.
      * rewrite (exitStatus_failed _ H3). reflexivity.
    + cbn [andb]. rewrite exitStatus_failed; [reflexivity|].
      apply bind_failed; [exact H2|].
      intros _ q Hq. now apply validate_keeps_failure.
  - cbn [andb]. rewrite exitStatus_failed; [reflexivity|].
    apply bind_failed; [exact H1|].
    intros _ q Hq. apply bind_failed.
    + now apply validate_keeps_failure.
    + intros _ q' Hq'. now apply validate_keeps_failure.
Qed.

(* ------------------------------------------------------------------ *)
(** ** The [checked] state of list items is never read                  *)
(* ------------------------------------------------------------------ *)

Lemma filter_map_commute {A B} (f : B -> bool) (g : A -> B) (l : list A) :
  filter f (map g l) = map g (filter (fun x => f (g x)) l).
Proof.
  induction l as [|x l IH]; simpl; [reflexivity|].
  rewrite IH. destruct (f (g x)); reflexivity.
Qed.

Lemma isList_uncheck (b : MarkdownItem.t) :
  isList (uncheckBlock b) = isList b.
Proof. reflexivity. Qed.

Lemma firstListBlock_uncheck (bs : list MarkdownItem.t) :
  firstListBlock (map uncheckBlock bs)
  = option_map uncheckBlock (firstListBlock bs).
Proof.
  unfold firstListBlock. induction bs as [|b bs IH]; simpl; [reflexivity|].
  rewrite isList_uncheck. destruct (isList b); [reflexivity | exact IH].
Qed.

Lemma allListItems_uncheck (bs : list MarkdownItem.t) :
  allListItems (map uncheckBlock bs) = map uncheckItem (allListItems bs).
Proof.
  unfold allListItems. induction bs as [|b bs IH]; simpl; [reflexivity|].
  rewrite isList_uncheck. destruct (isList b); [|exact IH].
  cbn [flat_map]. rewrite IH, map_app. f_equal.
  unfold itemsOrEmpty. simpl. destruct (MarkdownItem.items b); reflexivity.
Qed.

Lemma concreteItems_uncheck (bs : list MarkdownItem.t) :
  concreteItems (map uncheckBlock bs) = map uncheckItem (concreteItems bs).
Proof.
  unfold concreteItems. rewrite allListItems_uncheck, filter_map_commute.
  reflexivity.
Qed.

Lemma meaningfulItems_uncheck (bs : list MarkdownItem.t) :
  meaningfulItems (map uncheckBlock bs)
  = map uncheckItem (meaningfulItems bs).
Proof.
  unfold meaningfulItems. rewrite concreteItems_uncheck, filter_map_commute.
  reflexivity.
Qed.

Lemma descriptionReport_uncheck (bs : list MarkdownItem.t) :
  descriptionReport (map uncheckBlock bs) = descriptionReport bs.
Proof.
  unfold descriptionReport. rewrite meaningfulItems_uncheck, map_map.
  reflexivity.
Qed.

Lemma validate_uncheck (v : Validator) (s : option PRTemplateSection)
      (p : Process) :
  validate v (option_map uncheckSection s) p = validate v s p.
Proof.
  destruct (optBodies_cases s) as [Hnone | [bs ->]].
  - rewrite !validate_missing; trivial.
    destruct s as [[[bs|]]|]; try discriminate; reflexivity.
  - change (option_map uncheckSection (Some (mkSection (Some bs))))
      with (Some (mkSection (Some (map uncheckBlock bs)))).
    destruct v; cbn [validate].
    + rewrite !validateDescriptionOfChanges_cases.
      rewrite concreteItems_uncheck, meaningfulItems_uncheck,
              descriptionReport_uncheck.
      destruct (concreteItems bs); [reflexivity|].
      destruct (meaningfulItems bs); reflexivity.
    + rewrite !validateResolvedIssuesSection_cases, firstListBlock_uncheck.
      destruct (firstListBlock bs); reflexivity.
    + rewrite !validateQaSection_cases, firstListBlock_uncheck.
      destruct (firstListBlock bs) as [blk|]; [|reflexivity].
      cbn [option_map uncheckBlock MarkdownItem.items].
      destruct (MarkdownItem.items blk) as [[|it rest]|]; reflexivity.
Qed.

Lemma run_uncheck (d : PrDescription) : run (uncheck d) = run d.
Proof.
  unfold run, main, uncheck, bind.
  cbn [Description_of_changes GitHub_issues_resolved_by_this_PR
       Quality_Assurance].
  rewrite (validate_uncheck DescriptionOfChanges).
  cbn [validate].
  destruct (validateDescriptionOfChanges _ initial) as [a p1|]; [|reflexivity].
  rewrite (validate_uncheck ResolvedIssues). cbn [validate].
  destruct (validateResolvedIssuesSection _ p1) as [b p2|]; [|reflexivity].
  exact (validate_uncheck QualityAssurance _ p2).
Qed.

(* ------------------------------------------------------------------ *)
(** ** Passing sections                                                 *)
(* ------------------------------------------------------------------ *)

Lemma optBodies_some (s : option PRTemplateSection)
      (bs : list MarkdownItem.t) :
  optBodies s = Some bs -> s = Some (mkSection (Some bs)).
Proof. destruct s as [[[bs'|]]|]; simpl; congruence. Qed.

Lemma descriptionWellFormed_passes (s : option PRTemplateSection) :
  descriptionWellFormed s = true ->
  exists m, forall p,
    validateDescriptionOfChanges s p
    = passesWith "Description of Changes" m p.
Proof.
  unfold descriptionWellFormed.
  destruct (optBodies s) as [bs|] eqn:E; [|discriminate].
  apply optBodies_some in E. subst s. intros H.
  exists (descriptionReport bs). intros p.
  rewrite validateDescriptionOfChanges_cases.
  unfold meaningfulItems in *.
  destruct (concreteItems bs); [discriminate|].
  destruct (filter _ (_ :: _)); [discriminate | reflexivity].
Qed.

Lemma issuesWellFormed_passes (s : option PRTemplateSection) :
  issuesWellFormed s = true ->
  exists m, forall p,
    validateResolvedIssuesSection s p
    = passesWith "Issues resolved by this pull request" m p.
Proof.
  unfold issuesWellFormed.
  destruct (optBodies s) as [bs|] eqn:E; [|discriminate].
  apply optBodies_some in E. subst s.
  destruct (firstListBlock bs) as [[ty [raw|] its]|] eqn:F; try discriminate.
  intros H. apply andb_true_iff in H. destruct H as [Hne Hok].
  exists (issuesReport (Regex.GITHUB_ISSUE_FORMAT_match raw)). intros p.
  rewrite validateResolvedIssuesSection_cases, F. cbn [MarkdownItem.raw].
  apply negb_true_iff in Hne. rewrite Hne.
  unfold issuesVerdict. rewrite Hok. reflexivity.
Qed.

Lemma qaWellFormed_passes (s : option PRTemplateSection) :
  qaWellFormed s = true ->
  exists m, forall p,
    validateQaSection s p = passesWith "Success criteria" m p.
Proof.
  unfold qaWellFormed.
  destruct (optBodies s) as [bs|] eqn:E; [|discriminate].
  apply optBodies_some in E. subst s.
  destruct (firstListBlock bs) as [[ty raw [[|[ck [r|]] rest]|]]|] eqn:F;
    try discriminate.
  intros H. apply andb_true_iff in H. destruct H as [Hne Hok].
  exists r. intros p.
  rewrite validateQaSection_cases, F. cbn [MarkdownItem.items].
  unfold qaOnCriteria. cbn [ListItem.raw].
  apply negb_true_iff in Hne, Hok. rewrite Hne, Hok. reflexivity.
Qed.

(** The two validators whose every failure returns write one line. *)
Lemma description_writes_one_line (s : option PRTemplateSection)
      (p : Process) :
  List.length (written p (validateDescriptionOfChanges s p)) = 1%nat.
Proof.
  destruct (optBodies_cases s) as [Hnone | [bs ->]].
  - change (validateDescriptionOfChanges s p)
      with (validate DescriptionOfChanges s p).
    rewrite (validate_missing DescriptionOfChanges s p Hnone).
    now rewrite (written_app p [MissingSection DescriptionOfChanges] (Some 1%Z)).
  - rewrite validateDescriptionOfChanges_cases.
    destruct (concreteItems bs);
      [now rewrite (written_app p [NoConcreteChanges] (Some 1%Z))|].
    destruct (meaningfulItems bs);
      [now rewrite (written_app p [ChangesNotMeaningful] (Some 1%Z))|].
    unfold passesWith.
    now erewrite written_app by reflexivity.
Qed.

Lemma issues_writes_one_line (s : option PRTemplateSection) (p : Process) :
  List.length (written p (validateResolvedIssuesSection s p)) = 1%nat.
Proof.
  destruct (optBodies_cases s) as [Hnone | [bs ->]].
  - change (validateResolvedIssuesSection s p)
      with (validate ResolvedIssues s p).
    rewrite (validate_missing ResolvedIssues s p Hnone).
    now rewrite (written_app p [MissingSection ResolvedIssues] (Some 1%Z)).
  - rewrite validateResolvedIssuesSection_cases.
    assert (Hfail : List.length (written p (failsWith MissingIssueList p)) = 1%nat)
      by now rewrite (written_app p [MissingIssueList] (Some 1%Z)).
    destruct (firstListBlock bs) as [blk|]; [|exact Hfail].
    destruct (MarkdownItem.raw blk) as [raw|]; [|exact Hfail].
    destruct (Str.isEmpty raw); [exact Hfail|].
    unfold issuesVerdict, passesWith, failsWith.
    destruct (negb _ || mentionsNA raw);
      now erewrite written_app by reflexivity.
Qed.

(* ------------------------------------------------------------------ *)
(** ** The claims of the specification                                  *)
(* ------------------------------------------------------------------ *)

(** A first checklist item whose text is neither
    empty nor the template heading makes the check pass, reporting the
    text as it is. *)
Lemma qa_other_text_passes (bs : list MarkdownItem.t) (blk : MarkdownItem.t)
      (it : ListItem.t) (rest : list ListItem.t) (r : string) (p : Process) :
  firstListBlock bs = Some blk ->
  MarkdownItem.items blk = Some (it :: rest) ->
  ListItem.raw it = Some r ->
  Str.isEmpty r = false ->
  String.eqb (Str.trim r) SUCCESS_CRITERIA_TITLE = false ->
  validateQaSection (Some (mkSection (Some bs))) p
  = passesWith "Success criteria" r p.
Proof.
  intros Hb Hi Hr Hne Hother.
  rewrite validateQaSection_cases, Hb, Hi. unfold qaOnCriteria.
  rewrite Hr, Hne, Hother. reflexivity.
Qed.

(** C1 (defect of the code).  The claim wants the [PlaceholderCriteria]
    failure and the pass to exclude each other.  On a section whose first
    checklist item is the unedited template heading, one invocation of
    [validateQaSection] writes the [PlaceholderCriteria] failure and then
    a pass line with the same text: the failing branch has no [return]. *)
Theorem qa_placeholder_fails_then_passes :
  validateQaSection placeholderQaSection initial
  = Returned tt
      (mkProcess
         [PlaceholderCriteria SUCCESS_CRITERIA_TITLE;
          mkLine CheckMark "Success criteria" SUCCESS_CRITERIA_TITLE]
         (Some 1%Z)).
Proof. vm_compute. reflexivity. Qed.

(** C2 (defect of the code).  The claim wants one line per invocation.
    [validateQaSection] writes two lines, a failure and a pass, when the
    first checklist item is the template heading, and also when its text
    is the empty string. *)
Theorem qa_writes_two_lines :
  List.length
    (written initial (validateQaSection placeholderQaSection initial)) = 2%nat
  /\ List.length
       (written initial
          (validateQaSection (singleItemSection EmptyString) initial)) = 2%nat.
Proof. split; vm_compute; reflexivity. Qed.

(** C3.  When the first item of the first list-typed block has no raw text,
    [validateQaSection] writes the [InvalidCriteriaFormat] failure and goes
    on to the placeholder check, whose [raw.trim()] on the absent text
    throws: the outcome is the exception, raised after the failure line. *)
Theorem qa_absent_raw_falls_through
        (bs : list MarkdownItem.t) (blk : MarkdownItem.t) (it : ListItem.t)
        (rest : list ListItem.t) (p : Process) :
  firstListBlock bs = Some blk ->
  MarkdownItem.items blk = Some (it :: rest) ->
  ListItem.raw it = None ->
  validateQaSection (Some (mkSection (Some bs))) p
  = Thrown TypeError (processOf (failsWith InvalidCriteriaFormat p))
  /\ raw_trim (ListItem.raw it) (processOf (failsWith InvalidCriteriaFormat p))
     = Thrown TypeError (processOf (failsWith InvalidCriteriaFormat p)).
Proof.
  intros Hb Hi Hr. split.
  - rewrite validateQaSection_cases, Hb, Hi. unfold qaOnCriteria.
    rewrite Hr. reflexivity.
  - rewrite Hr. reflexivity.
Qed.

Lemma qa_absent_raw_falls_through_witness :
  validateQaSection (Some (mkSection (Some absentRawQaBody))) initial
  = Thrown TypeError (mkProcess [InvalidCriteriaFormat] (Some 1%Z)).
Proof.
  apply (qa_absent_raw_falls_through absentRawQaBody
           (MarkdownItem.mk (Some "list") (Some "- [ ]")
              (Some [ListItem.mk false None]))
           (ListItem.mk false None) [] initial); reflexivity.
Defined.

(** C4.  The exit status starts at zero; [fail] sets the exit code to 1;
    [pass] leaves it as it is; a validator leaves it as it is or sets it to
    1, so it is never cleared; and the run ends with status zero exactly
    when each of the three section checks passed. *)
Theorem exit_status_monotonic :
  exitStatus (Returned tt initial) = 0%Z
  /\ (forall f m p, exitCode (processOf (fail f m p)) = Some 1%Z)
  /\ (forall f m p, exitCode (processOf (pass f m p)) = exitCode p)
  /\ (forall v s p,
        exitCode (processOf (validate v s p)) = exitCode p
        \/ exitCode (processOf (validate v s p)) = Some 1%Z)
  /\ (forall d,
        (exitStatus (run d) =? 0)%Z
        = sectionPassed DescriptionOfChanges (Description_of_changes d)
          && sectionPassed ResolvedIssues (GitHub_issues_resolved_by_this_PR d)
          && sectionPassed QualityAssurance (Quality_Assurance d)).
Proof.
  repeat split; try reflexivity.
  - intros v s p.
    destruct (validate_dichotomy v s p) as [[_ (f & m & ->)] | [_ H]];
      [left; reflexivity | right; exact H].
  - apply run_status.
Qed.

(** C5.  With [bodies] present, the description check fails with
    [NoConcreteChanges] when the list [S] of concrete items is empty, fails
    with [ChangesNotMeaningful] when [S] is not empty but no item of [S] has
    a trimmed text longer than 10, and otherwise passes, reporting the raw
    texts of exactly the items of [S] longer than 10, joined.  The single
    item Fixd is a case of [ChangesNotMeaningful]. *)
Theorem description_of_changes_verdict :
  (forall bs p,
     validateDescriptionOfChanges (Some (mkSection (Some bs))) p =
     match concreteItems bs with
     | [] => failsWith NoConcreteChanges p
     | _ :: _ =>
         match meaningfulItems bs with
         | [] => failsWith ChangesNotMeaningful p
         | _ :: _ =>
             passesWith "Description of Changes" (descriptionReport bs) p
         end
     end)
  /\ validateDescriptionOfChanges (singleItemSection "Fixd") initial
     = failsWith ChangesNotMeaningful initial.
Proof.
  split; [exact validateDescriptionOfChanges_cases | reflexivity].
Qed.

(** C6.  With [bodies] present, the issues check looks at the first
    list-typed block only.  It fails with [MissingIssueList] when there is
    none or when its raw text is absent or empty.  Otherwise, with [refs]
    the references [#digits] of the raw text in order of appearance, it
    passes when [refs] is not empty or the text holds n/a in any case,
    reporting [refs] or the marker N/A, and fails with
    [MissingResolvedIssues] when neither holds. *)
Theorem resolved_issues_verdict
        (bs : list MarkdownItem.t) (refs : list string) (p : Process) :
  referencesOf bs refs ->
  validateResolvedIssuesSection (Some (mkSection (Some bs))) p
  = issuesOutcome bs refs p.
Proof.
  unfold referencesOf, issuesOutcome. intros H.
  rewrite validateResolvedIssuesSection_cases.
  destruct (firstListBlock bs) as [blk|]; [|reflexivity].
  destruct (MarkdownItem.raw blk) as [raw|]; [|reflexivity].
  rewrite (Extracts_unique _ _ H). reflexivity.
Qed.

Lemma resolved_issues_verdict_witness :
  validateResolvedIssuesSection (Some (mkSection (Some sampleIssuesBody)))
                                initial
  = passesWith "Issues resolved by this pull request" "#42,#108" initial.
Proof.
  apply (resolved_issues_verdict sampleIssuesBody ["#42"; "#108"] initial).
  exact (GITHUB_ISSUE_FORMAT_match_Extracts "Fixes #42 and #108").
Defined.

(** C7.  Each of the three validators, given a section whose [bodies] is
    absent (the section itself may be absent), fails with [MissingSection]
    and returns: that one line is all it writes. *)
Theorem missing_bodies_fails
        (v : Validator) (s : option PRTemplateSection) (p : Process) :
  optBodies s = None ->
  validate v s p = failsWith (MissingSection v) p.
Proof. apply validate_missing. Qed.

Lemma missing_bodies_fails_witness :
  validate QualityAssurance None initial
  = failsWith (MissingSection QualityAssurance) initial
  /\ validate ResolvedIssues (Some (mkSection None)) initial
     = failsWith (MissingSection ResolvedIssues) initial.
Proof.
  split.
  - apply (missing_bodies_fails QualityAssurance None initial). reflexivity.
  - apply (missing_bodies_fails ResolvedIssues (Some (mkSection None)) initial).
    reflexivity.
Defined.

(** C8.  With [bodies] present, the Quality Assurance check fails with
    [MissingChecklist] and returns when no block is list-typed, and fails
    with [EmptyChecklist] and returns when the first list-typed block has
    an empty or absent item sequence. *)
Theorem qa_checklist_guards (bs : list MarkdownItem.t) (p : Process) :
  (firstListBlock bs = None ->
   validateQaSection (Some (mkSection (Some bs))) p
   = failsWith MissingChecklist p)
  /\ (forall blk,
        firstListBlock bs = Some blk ->
        itemsOrEmpty blk = [] ->
        validateQaSection (Some (mkSection (Some bs))) p
        = failsWith EmptyChecklist p).
Proof.
  split.
  - intros H. rewrite validateQaSection_cases, H. reflexivity.
  - intros blk H Hi. rewrite validateQaSection_cases, H.
    unfold itemsOrEmpty in Hi.
    destruct (MarkdownItem.items blk) as [[|it rest]|];
      [reflexivity | discriminate | reflexivity].
Qed.

Lemma qa_checklist_guards_witness :
  validateQaSection (Some (mkSection (Some [textBlock "QA"]))) initial
  = failsWith MissingChecklist initial
  /\ validateQaSection
       (Some (mkSection (Some [textBlock "QA"; listBlock "-" []]))) initial
     = failsWith EmptyChecklist initial.
Proof.
  split.
  - apply (proj1 (qa_checklist_guards [textBlock "QA"] initial)). reflexivity.
  - apply (proj2 (qa_checklist_guards [textBlock "QA"; listBlock "-" []]
                    initial) (listBlock "-" [])); reflexivity.
Defined.

(** C9.  When the pass conditions of the three checks hold, the run
    returns having written three pass lines, for the description, the
    issues and the Quality Assurance section in this order, never sets
    the exit code, and ends with status 0. *)
Theorem full_run_all_pass (d : PrDescription) :
  descriptionWellFormed (Description_of_changes d) = true ->
  issuesWellFormed (GitHub_issues_resolved_by_this_PR d) = true ->
  qaWellFormed (Quality_Assurance d) = true ->
  exists m1 m2 m3,
    run d = Returned tt
              (mkProcess
                 [mkLine CheckMark "Description of Changes" m1;
                  mkLine CheckMark "Issues resolved by this pull request" m2;
                  mkLine CheckMark "Success criteria" m3]
                 None)
    /\ exitStatus (run d) = 0%Z.
Proof.
  intros H1 H2 H3.
  destruct (descriptionWellFormed_passes _ H1) as [m1 E1].
  destruct (issuesWellFormed_passes _ H2) as [m2 E2].
  destruct (qaWellFormed_passes _ H3) as [m3 E3].
  exists m1, m2, m3.
  assert (E : run d = Returned tt
              (mkProcess
                 [mkLine CheckMark "Description of Changes" m1;
                  mkLine CheckMark "Issues resolved by this pull request" m2;
                  mkLine CheckMark "Success criteria" m3]
                 None)).
  { unfold run, main, bind. rewrite E1. cbn [passesWith].
    rewrite E2. cbn [passesWith]. rewrite E3. reflexivity. }
  split; [exact E | rewrite E; reflexivity].
Qed.

Lemma full_run_all_pass_witness :
  exists m1 m2 m3,
    run (sampleDescription false)
    = Returned tt
        (mkProcess
           [mkLine CheckMark "Description of Changes" m1;
            mkLine CheckMark "Issues resolved by this pull request" m2;
            mkLine CheckMark "Success criteria" m3]
           None)
    /\ exitStatus (run (sampleDescription false)) = 0%Z.
Proof.
  apply (full_run_all_pass (sampleDescription false)); reflexivity.
Defined.

(** C10.  Two payloads that differ only in the [checked] fields of their
    list items have the same run: the same lines written, the same exit
    code, the same exit status. *)
Theorem checked_is_never_read (d1 d2 : PrDescription) :
  differOnlyInChecked d1 d2 ->
  run d1 = run d2 /\ exitStatus (run d1) = exitStatus (run d2).
Proof.
  unfold differOnlyInChecked. intros H.
  assert (E : run d1 = run d2).
  { rewrite <- (run_uncheck d1), <- (run_uncheck d2), H. reflexivity. }
  split; [exact E | now rewrite E].
Qed.

Lemma checked_is_never_read_witness :
  run (sampleDescription true) = run (sampleDescription false)
  /\ exitStatus (run (sampleDescription true))
     = exitStatus (run (sampleDescription false)).
Proof.
  apply (checked_is_never_read (sampleDescription true)
                               (sampleDescription false)).
  reflexivity.
Defined.

(* ------------------------------------------------------------------ *)
(** ** Validators and the process they run in                           *)
(* ------------------------------------------------------------------ *)

Lemma frame_failsWith (l : Line) (p : Process) :
  failsWith l p = frame p (failsWith l initial).
Proof. reflexivity. Qed.

Lemma frame_passesWith (f m : string) (p : Process) :
  passesWith f m p = frame p (passesWith f m initial).
Proof. reflexivity. Qed.

(** A validator reads nothing of the process it runs in. *)
Lemma validate_frame (v : Validator) (s : option PRTemplateSection)
      (p : Process) :
  validate v s p = frame p (validate v s initial).
Proof.
  destruct (optBodies_cases s) as [Hnone | [bs ->]].
  - rewrite !(validate_missing v s _ Hnone). reflexivity.
  - destruct v; cbn [validate].
    + rewrite !validateDescriptionOfChanges_cases.
      destruct (concreteItems bs); [reflexivity|].
      destruct (meaningfulItems bs); reflexivity.
    + rewrite !validateResolvedIssuesSection_cases.
      destruct (firstListBlock bs) as [blk|]; [|reflexivity].
      destruct (MarkdownItem.raw blk) as [raw|]; [|reflexivity].
      destruct (Str.isEmpty raw); [reflexivity|].
      unfold issuesVerdict.
      destruct (negb _ || mentionsNA raw); reflexivity.
    + rewrite !validateQaSection_cases.
      destruct (firstListBlock bs) as [blk|]; [|reflexivity].
      destruct (MarkdownItem.items blk) as [[|it rest]|]; try reflexivity.
      unfold qaOnCriteria.
      destruct (ListItem.raw it) as [r|]; [|reflexivity].
      destruct (Str.isEmpty r); [reflexivity|].
      destruct (String.eqb (Str.trim r) SUCCESS_CRITERIA_TITLE); reflexivity.
Qed.

Lemma validate_throws (v : Validator) (s : option PRTemplateSection)
      (p : Process) :
  throws (validate v s p)
  = match v with
    | QualityAssurance => qaCriteriaRawAbsent s
    | _ => false
    end.
Proof.
  destruct (optBodies_cases s) as [Hnone | [bs ->]].
  - rewrite (validate_missing v s _ Hnone).
    unfold qaCriteriaRawAbsent. rewrite Hnone. destruct v; reflexivity.
  - unfold qaCriteriaRawAbsent. destruct v; cbn [validate optBodies bodies].
    + rewrite validateDescriptionOfChanges_cases.
      destruct (concreteItems bs); [reflexivity|].
      destruct (meaningfulItems bs); reflexivity.
    + rewrite validateResolvedIssuesSection_cases.
      destruct (firstListBlock bs) as [blk|]; [|reflexivity].
      destruct (MarkdownItem.raw blk) as [raw|]; [|reflexivity].
      destruct (Str.isEmpty raw); [reflexivity|].
      unfold issuesVerdict.
      destruct (negb _ || mentionsNA raw); reflexivity.
    + rewrite validateQaSection_cases.
      destruct (firstListBlock bs) as [[ty raw [[|[ck [r|]] rest]|]]|];
        try reflexivity.
      unfold qaOnCriteria. cbn [MarkdownItem.items ListItem.raw].
      destruct (Str.isEmpty r); [reflexivity|].
      destruct (String.eqb (Str.trim r) SUCCESS_CRITERIA_TITLE); reflexivity.
Qed.

Lemma throws_false {A} (o : Outcome A) :
  throws o = false -> exists a q, o = Returned a q.
Proof. destruct o as [a q|e q]; [eauto | discriminate]. Qed.

(** What a validator wrote tells whether its check passed. *)
Lemma report_fail_line (v : Validator) (s : option PRTemplateSection) :
  existsb (fun l => negb (isPassLine l)) (report v s)
  = negb (sectionPassed v s).
Proof.
  unfold report, sectionPassed.
  destruct (optBodies_cases s) as [Hnone | [bs ->]].
  - rewrite (validate_missing v s _ Hnone). destruct v; reflexivity.
  - destruct v; cbn [validate].
    + rewrite validateDescriptionOfChanges_cases.
      destruct (concreteItems bs); [reflexivity|].
      destruct (meaningfulItems bs); reflexivity.
    + rewrite validateResolvedIssuesSection_cases.
      destruct (firstListBlock bs) as [blk|]; [|reflexivity].
      destruct (MarkdownItem.raw blk) as [raw|]; [|reflexivity].
      destruct (Str.isEmpty raw); [reflexivity|].
      unfold issuesVerdict.
      destruct (negb _ || mentionsNA raw); reflexivity.
    + rewrite validateQaSection_cases.
      destruct (firstListBlock bs) as [blk|]; [|reflexivity].
      destruct (MarkdownItem.items blk) as [[|it rest]|]; try reflexivity.
      unfold qaOnCriteria.
      destruct (ListItem.raw it) as [r|]; [|reflexivity].
      destruct (Str.isEmpty r); [reflexivity|].
      destruct (String.eqb (Str.trim r) SUCCESS_CRITERIA_TITLE); reflexivity.
Qed.

Lemma run_stdout (d : PrDescription) :
  stdout (processOf (run d))
  = (report DescriptionOfChanges (Description_of_changes d)
     ++ report ResolvedIssues (GitHub_issues_resolved_by_this_PR d)
     ++ report QualityAssurance (Quality_Assurance d))%list.
Proof.
  unfold run, main, report.
  change validateDescriptionOfChanges with (validate DescriptionOfChanges).
  change validateResolvedIssuesSection with (validate ResolvedIssues).
  change validateQaSection with (validate QualityAssurance).
  set (s1 := Description_of_changes d).
  set (s2 := GitHub_issues_resolved_by_this_PR d).
  set (s3 := Quality_Assurance d).
  destruct (throws_false _ (validate_throws DescriptionOfChanges s1 initial))
    as ([] & q1 & E1).
  unfold bind at 1. rewrite E1. cbn [processOf].
  pose proof (validate_throws ResolvedIssues s2 initial) as T2.
  destruct (throws_false _ T2) as ([] & q2 & E2).
  unfold bind at 1. rewrite (validate_frame ResolvedIssues s2 q1), E2.
  cbn [frame processOf stdout].
  rewrite (validate_frame QualityAssurance s3).
  destruct (validate QualityAssurance s3 initial) as [a q3|e q3];
    cbn [frame processOf stdout]; now rewrite app_assoc.
Qed.

Lemma run_throws (d : PrDescription) :
  throws (run d) = qaCriteriaRawAbsent (Quality_Assurance d).
Proof.
  unfold run, main.
  change validateDescriptionOfChanges with (validate DescriptionOfChanges).
  change validateResolvedIssuesSection with (validate ResolvedIssues).
  change validateQaSection with (validate QualityAssurance).
  destruct (throws_false _ (validate_throws DescriptionOfChanges
                              (Description_of_changes d) initial))
    as ([] & q1 & E1).
  unfold bind at 1. rewrite E1.
  destruct (throws_false _ (validate_throws ResolvedIssues
                              (GitHub_issues_resolved_by_this_PR d) q1))
    as ([] & q2 & E2).
  unfold bind at 1. rewrite E2.
  exact (validate_throws QualityAssurance _ q2).
Qed.

Lemma validate_exit_code (v : Validator) (s : option PRTemplateSection)
      (p : Process) :
  exitCode p = None \/ exitCode p = Some 1%Z ->
  exitCode (processOf (validate v s p)) = None
  \/ exitCode (processOf (validate v s p)) = Some 1%Z.
Proof.
  intros Hp.
  destruct (validate_dichotomy v s p) as [[_ (f & m & ->)] | [_ H]];
    [exact Hp | right; exact H].
Qed.

Lemma run_exit_code (d : PrDescription) :
  exitCode (processOf (run d)) = None
  \/ exitCode (processOf (run d)) = Some 1%Z.
Proof.
  unfold run, main, bind.
  pose proof (validate_exit_code DescriptionOfChanges
                (Description_of_changes d) initial (or_introl eq_refl)) as H1.
  cbn [validate] in H1.
  destruct (validateDescriptionOfChanges _ initial) as [a1 p1|e1 p1];
    [|exact H1].
  pose proof (validate_exit_code ResolvedIssues
                (GitHub_issues_resolved_by_this_PR d) p1 H1) as H2.
  cbn [validate] in H2.
  destruct (validateResolvedIssuesSection _ p1) as [a2 p2|e2 p2];
    [|exact H2].
  exact (validate_exit_code QualityAssurance (Quality_Assurance d) p2 H2).
Qed.

Lemma run_exit_status (d : PrDescription) :
  exitStatus (run d) = 0%Z \/ exitStatus (run d) = 1%Z.
Proof.
  pose proof (run_exit_code d) as H.
  destruct (run d) as [a p|e p]; [|right; reflexivity].
  cbn [processOf exitStatus] in *. destruct H as [-> | ->]; auto.
Qed.

Lemma run_failure_lines (d : PrDescription) :
  exitStatus (run d)
  = if existsb (fun l => negb (isPassLine l)) (stdout (processOf (run d)))
    then 1%Z else 0%Z.
Proof.
  rewrite run_stdout, !existsb_app, !report_fail_line.
  pose proof (run_status d) as Hs.
  destruct (sectionPassed DescriptionOfChanges _),
           (sectionPassed ResolvedIssues _),
           (sectionPassed QualityAssurance _);
    cbn [negb orb andb] in *;
    destruct (run_exit_status d) as [E | E]; rewrite E in *;
    first [reflexivity | discriminate Hs].
Qed.

(** X1.  A validator reads nothing of the process it runs in: started in
    any process [p] it behaves as in a fresh one, its lines following those
    of [p], which it leaves as they are, and the exit code of [p] standing
    unless the validator sets its own. *)
Theorem validators_ignore_process_state
        (v : Validator) (s : option PRTemplateSection) (p : Process) :
  validate v s p = frame p (validate v s initial).
Proof. apply validate_frame. Qed.

(** X2.  The description check and the issues check never throw, whatever
    is absent in the section: each dereference of a raw text comes after a
    guard. *)
Theorem description_and_issues_never_throw
        (s : option PRTemplateSection) (p : Process) :
  throws (validateDescriptionOfChanges s p) = false
  /\ throws (validateResolvedIssuesSection s p) = false.
Proof.
  split;
    [exact (validate_throws DescriptionOfChanges s p)
    |exact (validate_throws ResolvedIssues s p)].
Qed.

(** X3.  A run ends in an uncaught exception exactly when the first item of
    the first list-typed block of the Quality Assurance section is there
    and has no raw text. *)
Theorem run_throws_iff_criteria_raw_absent (d : PrDescription) :
  throws (run d) = qaCriteriaRawAbsent (Quality_Assurance d).
Proof. apply run_throws. Qed.

(** X4.  A run reports on the three sections whatever the earlier ones
    gave: its output is what the description check writes, then what the
    issues check writes, then what the Quality Assurance check writes, each
    as if run alone. *)
Theorem run_reports_every_section (d : PrDescription) :
  stdout (processOf (run d))
  = (report DescriptionOfChanges (Description_of_changes d)
     ++ report ResolvedIssues (GitHub_issues_resolved_by_this_PR d)
     ++ report QualityAssurance (Quality_Assurance d))%list.
Proof. apply run_stdout. Qed.

(** X5.  The exit status of a run is 1 when its output has a failure line
    and 0 when it has none; it is never anything else. *)
Theorem exit_status_reflects_failure_lines (d : PrDescription) :
  exitStatus (run d)
  = if existsb (fun l => negb (isPassLine l)) (stdout (processOf (run d)))
    then 1%Z else 0%Z.
Proof. apply run_failure_lines. Qed.

(* ------------------------------------------------------------------ *)
(** ** Trimming and the placeholder pattern                             *)
(* ------------------------------------------------------------------ *)

Lemma isWhiteSpace_not_bracket (c : ascii) :
  Str.isWhiteSpace c = true ->
  Ascii.eqb c Regex.LT = false /\ Ascii.eqb c Regex.GT = false.
Proof.
  destruct c as [[] [] [] [] [] [] [] []]; intros H;
    first [discriminate H | split; reflexivity].
Qed.

Lemma trimStart_blank (s : string) :
  allChars Str.isWhiteSpace s = true -> Str.trimStart s = EmptyString.
Proof.
  induction s as [|c r IH]; [reflexivity|].
  cbn [allChars Str.trimStart]. intros H.
  apply andb_true_iff in H. destruct H as [-> Hr]. exact (IH Hr).
Qed.

Lemma trimStart_empty (s : string) :
  Str.trimStart s = EmptyString -> allChars Str.isWhiteSpace s = true.
Proof.
  induction s as [|c r IH]; [reflexivity|].
  cbn [allChars Str.trimStart].
  destruct (Str.isWhiteSpace c); [exact IH | discriminate].
Qed.

Lemma trimEnd_empty (s : string) :
  Str.trimEnd s = EmptyString -> allChars Str.isWhiteSpace s = true.
Proof.
  induction s as [|c r IH]; [reflexivity|].
  cbn [allChars Str.trimEnd].
  destruct (Str.isWhiteSpace c); [|discriminate].
  destruct (Str.trimEnd r); [intros _; exact (IH eq_refl) | discriminate].
Qed.

Lemma trimStart_suffix_blank (s : string) :
  allChars Str.isWhiteSpace (Str.trimStart s) = true ->
  allChars Str.isWhiteSpace s = true.
Proof.
  induction s as [|c r IH]; [reflexivity|].
  cbn [Str.trimStart]. destruct (Str.isWhiteSpace c) eqn:E.
  - intros H. cbn [allChars]. rewrite E. exact (IH H).
  - cbn [allChars]. rewrite E. discriminate.
Qed.

(** The trimmed text is empty exactly when the text is white space only. *)
Lemma trim_empty (s : string) :
  Str.isEmpty (Str.trim s) = allChars Str.isWhiteSpace s.
Proof.
  destruct (allChars Str.isWhiteSpace s) eqn:E.
  - unfold Str.trim. rewrite (trimStart_blank _ E). reflexivity.
  - destruct (Str.isEmpty (Str.trim s)) eqn:T; [|reflexivity].
    apply isEmpty_true in T. unfold Str.trim in T.
    apply trimEnd_empty, trimStart_suffix_blank in T. congruence.
Qed.

Lemma placeholderAt_blank (c : ascii) (r : string) :
  Str.isWhiteSpace c = true -> Regex.placeholderAt (String c r) = false.
Proof.
  intros H. destruct (isWhiteSpace_not_bracket c H) as [Hlt _].
  destruct r; cbn [Regex.placeholderAt]; [reflexivity|].
  rewrite Hlt. reflexivity.
Qed.

Lemma placeholderRegex_test_trimStart (s : string) :
  Regex.placeholderRegex_test (Str.trimStart s)
  = Regex.placeholderRegex_test s.
Proof.
  induction s as [|c r IH]; [reflexivity|].
  cbn [Str.trimStart]. destruct (Str.isWhiteSpace c) eqn:E; [|reflexivity].
  rewrite IH. cbn [Regex.placeholderRegex_test].
  rewrite (placeholderAt_blank c r E). reflexivity.
Qed.

Lemma placeholderClose_trimEnd (s : string) :
  Regex.placeholderClose (Str.trimEnd s) = Regex.placeholderClose s.
Proof.
  induction s as [|c r IH]; [reflexivity|].
  cbn [Str.trimEnd Regex.placeholderClose].
  destruct (Str.isWhiteSpace c && Str.isEmpty (Str.trimEnd r)) eqn:E.
  - apply andb_true_iff in E. destruct E as [Hc Hr].
    destruct (isWhiteSpace_not_bracket c Hc) as [_ ->].
    apply isEmpty_true in Hr. rewrite <- IH, Hr. reflexivity.
  - cbn [Regex.placeholderClose]. rewrite IH. reflexivity.
Qed.

Lemma placeholderAt_trimEnd (s : string) :
  Regex.placeholderAt (Str.trimEnd s) = Regex.placeholderAt s.
Proof.
  destruct s as [|a r]; [reflexivity|].
  cbn [Str.trimEnd].
  destruct (Str.isWhiteSpace a && Str.isEmpty (Str.trimEnd r)) eqn:E.
  - apply andb_true_iff in E. destruct E as [Ha _].
    now rewrite (placeholderAt_blank a r Ha).
  - destruct r as [|b r']; [reflexivity|].
    cbn [Str.trimEnd].
    destruct (Str.isWhiteSpace b && Str.isEmpty (Str.trimEnd r')) eqn:F.
    + apply andb_true_iff in F. destruct F as [_ Hr].
      apply isEmpty_true in Hr. cbn [Regex.placeholderAt].
      rewrite <- placeholderClose_trimEnd, Hr. cbn [Regex.placeholderClose].
      now rewrite andb_false_r.
    + cbn [Regex.placeholderAt]. now rewrite placeholderClose_trimEnd.
Qed.

Lemma placeholderRegex_test_trimEnd (s : string) :
  Regex.placeholderRegex_test (Str.trimEnd s)
  = Regex.placeholderRegex_test s.
Proof.
  induction s as [|c r IH]; [reflexivity|].
  cbn [Regex.placeholderRegex_test].
  rewrite <- (placeholderAt_trimEnd (String c r)), <- IH.
  cbn [Str.trimEnd].
  destruct (Str.isWhiteSpace c && Str.isEmpty (Str.trimEnd r)) eqn:E.
  - apply andb_true_iff in E. destruct E as [_ Hr].
    apply isEmpty_true in Hr. rewrite Hr. reflexivity.
  - reflexivity.
Qed.

(** Trimming neither makes nor breaks a match of the placeholder pattern:
    the brackets are not white space. *)
Lemma placeholderRegex_test_trim (s : string) :
  Regex.placeholderRegex_test (Str.trim s) = Regex.placeholderRegex_test s.
Proof.
  unfold Str.trim.
  now rewrite placeholderRegex_test_trimEnd, placeholderRegex_test_trimStart.
Qed.

Lemma isConcreteChange_Boilerplate (item : ListItem.t) :
  isConcreteChange item = false <-> Boilerplate item.
Proof.
  rewrite isConcreteChange_spec. unfold isBoilerplate, Boilerplate, trimmedRaw.
  destruct (ListItem.raw item) as [r|]; cbn [display].
  - rewrite trim_empty, placeholderRegex_test_trim, negb_false_iff,
            orb_true_iff, placeholderRegex_test_spec.
    reflexivity.
  - split; [trivial | reflexivity].
Qed.

Lemma concreteItems_Boilerplate (bs : list MarkdownItem.t) :
  Forall Boilerplate (allListItems bs) -> concreteItems bs = [].
Proof.
  rewrite <- concreteItems_filter. fold (allListItems bs).
  induction 1 as [|item l Hitem _ IH]; [reflexivity|].
  cbn [filter]. apply isConcreteChange_Boilerplate in Hitem.
  rewrite Hitem. exact IH.
Qed.

(** X6.  The placeholder pattern [<[^>]+>] is found in a text exactly when
    the text holds a [<], then one or more characters other than [>], then
    a [>]; an empty pair of brackets is no match. *)
Theorem placeholder_pattern_meaning (s : string) :
  Regex.placeholderRegex_test s = true <-> MatchesPlaceholder s.
Proof. apply placeholderRegex_test_spec. Qed.

(** X7.  The first filter of the description check drops an item exactly
    when its raw text is absent, is white space only (the empty text
    included), or holds an angle-bracket pair somewhere; trimming plays no
    part in the last. *)
Theorem dropped_items_are_boilerplate (item : ListItem.t) :
  isConcreteChange item = false <-> Boilerplate item.
Proof. apply isConcreteChange_Boilerplate. Qed.

(** X8.  A description whose list items all are boilerplate fails with
    [NoConcreteChanges], however long their texts are: an item that
    mentions, say, a generic type between angle brackets counts as an
    unedited placeholder. *)
Theorem boilerplate_only_description_fails
        (bs : list MarkdownItem.t) (p : Process) :
  Forall Boilerplate (allListItems bs) ->
  validateDescriptionOfChanges (sectionWith bs) p
  = failsWith NoConcreteChanges p.
Proof.
  intros H. unfold sectionWith.
  rewrite validateDescriptionOfChanges_cases, (concreteItems_Boilerplate bs H).
  reflexivity.
Qed.

Lemma boilerplate_only_description_fails_witness :
  validateDescriptionOfChanges (sectionWith genericTypeBody) initial
  = failsWith NoConcreteChanges initial.
Proof.
  apply (boilerplate_only_description_fails genericTypeBody initial).
  change (Forall Boilerplate
            [ListItem.mk true
               (Some "Return Promise<void> from the deploy client");
             ListItem.mk false (Some "   ")]).
  apply Forall_cons; [|apply Forall_cons; [|apply Forall_nil]].
  - right. apply placeholderRegex_test_spec. reflexivity.
  - left. reflexivity.
Defined.

(* ------------------------------------------------------------------ *)
(** ** What each check looks at                                         *)
(* ------------------------------------------------------------------ *)

Lemma allListItems_app (bs1 bs2 : list MarkdownItem.t) :
  allListItems (bs1 ++ bs2) = (allListItems bs1 ++ allListItems bs2)%list.
Proof. unfold allListItems. now rewrite filter_app, flat_map_app. Qed.

Lemma meaningfulItems_app (bs1 bs2 : list MarkdownItem.t) :
  meaningfulItems (bs1 ++ bs2)
  = (meaningfulItems bs1 ++ meaningfulItems bs2)%list.
Proof.
  unfold meaningfulItems, concreteItems.
  now rewrite allListItems_app, !filter_app.
Qed.

Lemma allListItems_mergedList (bs : list MarkdownItem.t) :
  allListItems [mergedList bs] = allListItems bs.
Proof. unfold allListItems at 1. cbn. apply app_nil_r. Qed.

Lemma firstListBlock_app (pre post : list MarkdownItem.t)
      (blk : MarkdownItem.t) :
  noListBlock pre = true -> isList blk = true ->
  firstListBlock (pre ++ blk :: post) = Some blk.
Proof.
  unfold firstListBlock, noListBlock. intros Hpre Hblk.
  induction pre as [|b pre IH]; cbn [app find].
  - now rewrite Hblk.
  - cbn [forallb] in Hpre. apply andb_true_iff in Hpre.
    destruct Hpre as [Hb Hpre]. apply negb_true_iff in Hb.
    rewrite Hb. exact (IH Hpre).
Qed.

(** X9.  Adding blocks before or after the blocks of a passing description
    leaves it passing: the description check has no first-block rule and
    no item can spoil another. *)
Theorem description_pass_is_monotone
        (pre bs post : list MarkdownItem.t) :
  sectionPassed DescriptionOfChanges (sectionWith bs) = true ->
  sectionPassed DescriptionOfChanges (sectionWith (pre ++ bs ++ post)) = true.
Proof.
  rewrite !sectionPassed_description. unfold sectionWith, descriptionWellFormed.
  cbn [optBodies bodies]. rewrite !meaningfulItems_app.
  destruct (meaningfulItems bs) as [|i l]; [discriminate|].
  intros _. rewrite !length_app. cbn [List.length].
  rewrite Nat.add_succ_l, Nat.add_succ_r. reflexivity.
Qed.

Lemma description_pass_is_monotone_witness :
  sectionPassed DescriptionOfChanges
    (sectionWith (genericTypeBody ++ loginFixBody ++ [textBlock "Notes"]))
  = true.
Proof.
  apply (description_pass_is_monotone genericTypeBody loginFixBody
           [textBlock "Notes"]).
  reflexivity.
Defined.

(** X10.  The description check looks at the list items of the list-typed
    blocks and at nothing else: gathered in one block, without the other
    blocks and without the raw texts of the blocks, they give the same
    outcome. *)
Theorem description_reads_list_items_only
        (bs : list MarkdownItem.t) (p : Process) :
  validateDescriptionOfChanges (sectionWith bs) p
  = validateDescriptionOfChanges (sectionWith [mergedList bs]) p.
Proof.
  unfold sectionWith. rewrite !validateDescriptionOfChanges_cases.
  unfold descriptionReport, meaningfulItems, concreteItems.
  rewrite allListItems_mergedList. reflexivity.
Qed.

(** X11.  The issues check looks at the raw text of the first list-typed
    block and at nothing else: the blocks before it that are not lists,
    every block after it and its items change nothing, so a later list
    that names an issue does not make up for a first list that names
    none. *)
Theorem issues_reads_first_list_raw_only
        (pre post : list MarkdownItem.t) (blk : MarkdownItem.t)
        (p : Process) :
  noListBlock pre = true ->
  isList blk = true ->
  validateResolvedIssuesSection (sectionWith (pre ++ blk :: post)) p
  = validateResolvedIssuesSection (sectionWith [rawOnly blk]) p.
Proof.
  intros Hpre Hblk. unfold sectionWith.
  rewrite !validateResolvedIssuesSection_cases.
  rewrite (firstListBlock_app pre post blk Hpre Hblk). reflexivity.
Qed.

Lemma issues_reads_first_list_raw_only_witness :
  validateResolvedIssuesSection
    (sectionWith ([textBlock "Issues"]
                  ++ listBlock "none yet" [] :: [listBlock "#7" []])) initial
  = validateResolvedIssuesSection
      (sectionWith [rawOnly (listBlock "none yet" [])]) initial.
Proof.
  apply (issues_reads_first_list_raw_only [textBlock "Issues"]
           [listBlock "#7" []] (listBlock "none yet" []) initial);
    reflexivity.
Defined.

(** X12.  The Quality Assurance check looks at the first item of the first
    list-typed block and at nothing else: other blocks, the raw text of
    the block and its further items change nothing. *)
Theorem qa_reads_first_item_only
        (pre post : list MarkdownItem.t) (blk : MarkdownItem.t)
        (p : Process) :
  noListBlock pre = true ->
  isList blk = true ->
  validateQaSection (sectionWith (pre ++ blk :: post)) p
  = validateQaSection (sectionWith [firstItemOnly blk]) p.
Proof.
  intros Hpre Hblk. unfold sectionWith.
  rewrite !validateQaSection_cases.
  rewrite (firstListBlock_app pre post blk Hpre Hblk).
  cbn [firstListBlock find isList firstItemOnly MarkdownItem.type
       MarkdownItem.items String.eqb Ascii.eqb Bool.eqb].
  destruct (MarkdownItem.items blk) as [[|it rest]|]; reflexivity.
Qed.

Lemma qa_reads_first_item_only_witness :
  validateQaSection
    (sectionWith ([textBlock "QA"]
                  ++ listBlock "- works"
                       [ListItem.mk false (Some "Users can log in again");
                        ListItem.mk false None]
                     :: [listBlock "-" []])) initial
  = validateQaSection
      (sectionWith
         [firstItemOnly
            (listBlock "- works"
               [ListItem.mk false (Some "Users can log in again");
                ListItem.mk false None])]) initial.
Proof.
  apply (qa_reads_first_item_only [textBlock "QA"] [listBlock "-" []]
           (listBlock "- works"
              [ListItem.mk false (Some "Users can log in again");
               ListItem.mk false None]) initial); reflexivity.
Defined.

(* ------------------------------------------------------------------ *)
(** ** When the issues check passes                                     *)
(* ------------------------------------------------------------------ *)

Lemma HasReference_cons (c : ascii) (r : string) :
  HasReference r -> HasReference (String c r).
Proof.
  intros (pre & d & post & -> & Hd). now exists (String c pre), d, post.
Qed.

Lemma noReference_HasReference (s : string) :
  ~ HasReference s -> noReference s EmptyString.
Proof.
  induction s as [|c r IH]; intros Hno; [exact I|].
  cbn [noReference]. split.
  - intros ->. rewrite append_empty_r.
    destruct r as [|b r']; [reflexivity|].
    cbn [Regex.digits]. destruct (Str.isDigit b) eqn:E; [|reflexivity].
    exfalso. apply Hno. now exists EmptyString, b, r'.
  - apply IH. intros H. apply Hno. now apply HasReference_cons.
Qed.

Lemma match_HasReference (s : string) :
  Regex.GITHUB_ISSUE_FORMAT_match s <> [] <-> HasReference s.
Proof.
  split.
  - intros Hne.
    pose proof (GITHUB_ISSUE_FORMAT_match_Extracts s) as H.
    inversion H as [g Hg E | g d rest l Hg Hd Hmax Hrest E1 E2].
    + congruence.
    + destruct d as [|c d']; [congruence|].
      cbn [append Regex.digits] in Hmax.
      destruct (Str.isDigit c) eqn:Ec; [|discriminate].
      now exists g, c, (d' ++ rest).
  - intros (pre & c & post & -> & Hc) Hnil.
    assert (Hm : Regex.matchAll 0 (String Regex.HASH (String c post)) <> []).
    { cbn [Regex.matchAll Regex.digits]. rewrite Ascii.eqb_refl, Hc.
      cbn [Str.isEmpty]. discriminate. }
    unfold Regex.GITHUB_ISSUE_FORMAT_match in Hnil. revert Hnil.
    induction pre as [|x pre IH]; [exact Hm|].
    cbn [append Regex.matchAll].
    destruct (Ascii.eqb x Regex.HASH); [|exact IH].
    destruct (Str.isEmpty _); [exact IH | discriminate].
Qed.

Lemma mentionsNA_cons (x : ascii) (r : string) :
  mentionsNA r = true -> mentionsNA (String x r) = true.
Proof.
  destruct r as [|b [|c r']]; cbn [mentionsNA]; try discriminate.
  intros ->. apply orb_true_r.
Qed.

Lemma mentionsNA_spec (raw : string) :
  mentionsNA raw = true <-> MentionsNA raw.
Proof.
  split.
  - induction raw as [|a r IH]; [discriminate|].
    destruct r as [|b [|c r']]; try discriminate.
    cbn [mentionsNA]. intros H. apply orb_true_iff in H.
    destruct H as [H | H].
    + apply andb_true_iff in H. destruct H as [H Hc].
      apply andb_true_iff in H. destruct H as [Ha Hb].
      apply Ascii.eqb_eq in Hb. subst b.
      exists EmptyString, a, c, r'. repeat split.
      * apply orb_true_iff in Ha.
        destruct Ha as [Ha | Ha]; apply Ascii.eqb_eq in Ha; auto.
      * apply orb_true_iff in Hc.
        destruct Hc as [Hc | Hc]; apply Ascii.eqb_eq in Hc; auto.
    + destruct (IH H) as (pre & a' & c' & post & E & Ha & Hc).
      exists (String a pre), a', c', post. rewrite E. auto.
  - intros (pre & a & c & post & -> & Ha & Hc).
    induction pre as [|x pre IH].
    + cbn [append mentionsNA].
      destruct Ha as [-> | ->]; destruct Hc as [-> | ->]; reflexivity.
    + cbn [append]. now apply mentionsNA_cons.
Qed.

Lemma isEmpty_false_iff (s : string) :
  Str.isEmpty s = false <-> s <> EmptyString.
Proof. destruct s; simpl; split; congruence. Qed.

(** X13.  The references found in a text all read [#] followed by one or
    more digits, and there is one exactly when the text holds a [#]
    immediately followed by a digit. *)
Theorem issue_references_found (s : string) :
  Forall isIssueReference (Regex.GITHUB_ISSUE_FORMAT_match s)
  /\ (Regex.GITHUB_ISSUE_FORMAT_match s <> [] <-> HasReference s).
Proof.
  split.
  - exact (Extracts_references s _ (GITHUB_ISSUE_FORMAT_match_Extracts s)).
  - apply match_HasReference.
Qed.

(** X14.  When the first list-typed block has a non-empty raw text, the
    issues check passes exactly when that text holds a [#] immediately
    followed by a digit or holds n/a in some mix of cases, be it inside a
    longer word. *)
Theorem issues_pass_criterion
        (bs : list MarkdownItem.t) (blk : MarkdownItem.t) (raw : string) :
  firstListBlock bs = Some blk ->
  MarkdownItem.raw blk = Some raw ->
  raw <> EmptyString ->
  (sectionPassed ResolvedIssues (sectionWith bs) = true
   <-> HasReference raw \/ MentionsNA raw).
Proof.
  intros Hb Hr Hne.
  rewrite sectionPassed_issues. unfold sectionWith, issuesWellFormed.
  cbn [optBodies bodies]. rewrite Hb.
  destruct blk as [ty r its]. cbn [MarkdownItem.raw] in Hr. subst r.
  apply isEmpty_false_iff in Hne. rewrite Hne. cbn [negb andb].
  rewrite orb_true_iff, mentionsNA_spec, <- match_HasReference.
  destruct (Regex.GITHUB_ISSUE_FORMAT_match raw) as [|m l];
    cbn [List.length Nat.eqb negb].
  - split; intros [H | H]; auto; first [discriminate | congruence].
  - split; intros _; left; [discriminate | reflexivity].
Qed.

Lemma issues_pass_criterion_witness :
  sectionPassed ResolvedIssues (sectionWith [aroundBlock]) = true
  <-> HasReference "Nothing to link, see the notes in/around the wiki"
      \/ MentionsNA "Nothing to link, see the notes in/around the wiki".
Proof.
  apply (issues_pass_criterion [aroundBlock] aroundBlock
           "Nothing to link, see the notes in/around the wiki");
    [reflexivity | reflexivity | discriminate].
Defined.

(* ------------------------------------------------------------------ *)
(** ** The generated API services                                       *)
(* ------------------------------------------------------------------ *)

Lemma string_of_uint_digits (d : Decimal.uint) :
  allChars Str.isDigit (NilEmpty.string_of_uint d) = true.
Proof. induction d; cbn [NilEmpty.string_of_uint allChars]; auto. Qed.

Lemma Number_toString_digits (n : N) :
  allChars Str.isDigit (Url.Number_toString n) = true.
Proof. apply string_of_uint_digits. Qed.

Lemma Number_toString_inj (i j : N) :
  Url.Number_toString i = Url.Number_toString j -> i = j.
Proof.
  unfold Url.Number_toString. intros H.
  apply (f_equal NilEmpty.uint_of_string) in H.
  rewrite !NilEmpty.usu in H. injection H as H.
  apply (f_equal N.of_uint) in H. now rewrite !Unsigned.of_to in H.
Qed.

Lemma isDigit_isUnreserved (c : ascii) :
  Str.isDigit c = true -> Url.isUnreserved c = true.
Proof.
  unfold Str.isDigit, Url.isUnreserved. cbv zeta. intros ->.
  now rewrite orb_true_r.
Qed.

(** Digits go through [encodeURIComponent] as they are. *)
Lemma encodeURIComponent_digits (s : string) :
  allChars Str.isDigit s = true -> Url.encodeURIComponent s = s.
Proof.
  induction s as [|c r IH]; [reflexivity|].
  cbn [allChars Url.encodeURIComponent]. intros H.
  apply andb_true_iff in H. destruct H as [Hc Hr].
  unfold Url.encodeChar. rewrite (isDigit_isUnreserved c Hc).
  cbn [append]. now rewrite (IH Hr).
Qed.

Lemma encoded_id (id : N) :
  Url.encodeURIComponent (Url.Number_toString id) = Url.Number_toString id.
Proof. apply encodeURIComponent_digits, Number_toString_digits. Qed.

Lemma perform_present {Body} (op : Operation) (id : N)
      (extraBodyParams : option Body) :
  perform op (Some id) extraBodyParams
  = Sends (mkRequest (verbOf op) (pathOf op id) (dataOf op extraBodyParams)).
Proof.
  destruct op; cbn [perform verbOf pathOf dataOf];
    unfold CronJobsApiService.deleteCronJob, CronJobsApiService.getCronJob,
           ServicesApiService.deleteService, ServicesApiService.getService,
           ServicesApiService.reloadService, ServicesApiService.restartService,
           ServicesApiService.startService, ServicesApiService.stopService;
    rewrite encoded_id; do 2 f_equal;
    generalize (Url.Number_toString id); intros x; cbn;
    rewrite ?append_empty_r; reflexivity.
Qed.

(** A run of digits followed by a slash is read back in one way only. *)
Lemma digits_then_slash (d1 d2 a b : string) :
  allChars Str.isDigit d1 = true ->
  allChars Str.isDigit d2 = true ->
  d1 ++ String "/" a = d2 ++ String "/" b ->
  d1 = d2 /\ a = b.
Proof.
  revert d2. induction d1 as [|c d1 IH]; intros [|c2 d2] H1 H2 E;
    cbn [append allChars] in *.
  - injection E as E. now split.
  - injection E as Ec E. subst c2. discriminate.
  - injection E as Ec E. subst c. discriminate.
  - injection E as Ec E. subst c2.
    apply andb_true_iff in H1, H2.
    destruct (IH d2 (proj2 H1) (proj2 H2) E) as [-> ->]. now split.
Qed.

Lemma routes_distinct (op1 op2 : Operation) (i j : N) :
  verbOf op1 = verbOf op2 ->
  pathOf op1 i = pathOf op2 j ->
  op1 = op2 /\ i = j.
Proof.
  pose proof (Number_toString_digits i) as Di.
  pose proof (Number_toString_digits j) as Dj.
  pose proof (Number_toString_inj i j) as Hinj.
  destruct op1, op2; cbn [verbOf]; intros Hv; try discriminate Hv;
    cbn [pathOf append]; intros Hp; try discriminate Hp;
    injection Hp as Hp;
    try (split; [reflexivity | exact (Hinj Hp)]);
    destruct (digits_then_slash _ _ _ _ Di Dj Hp) as [Hd Hs];
    try discriminate Hs;
    (split; [reflexivity | exact (Hinj Hd)]).
Qed.

(** X15.  Given an id, each of the eight operations makes one request:
    with its own verb, to its path with the id written in plain decimal
    where the placeholder was (no escape, no brace left), and carrying the
    optional data for the [post] operations only. *)
Theorem operation_requests_its_path {Body}
        (op : Operation) (id : N) (extraBodyParams : option Body) :
  isSafeId id ->
  perform op (Some id) extraBodyParams
  = Sends (mkRequest (verbOf op) (pathOf op id) (dataOf op extraBodyParams)).
Proof. intros _. apply perform_present. Qed.

Lemma operation_requests_its_path_witness :
  perform RestartService (Some 42%N) (Some tt)
  = Sends (mkRequest POST "/services/42/restart" (Some tt)).
Proof.
  apply (operation_requests_its_path RestartService 42%N (Some tt)).
  reflexivity.
Defined.

(** X16.  No two requests collide: when two operations, each given an id,
    make requests with the same verb and the same path, they are the same
    operation on the same id. *)
Theorem operations_do_not_collide {Body}
        (op1 op2 : Operation) (i j : N) (b1 b2 : option Body)
        (r1 r2 : Request Body) :
  isSafeId i -> isSafeId j ->
  perform op1 (Some i) b1 = Sends r1 ->
  perform op2 (Some j) b2 = Sends r2 ->
  verb r1 = verb r2 ->
  path r1 = path r2 ->
  op1 = op2 /\ i = j.
Proof.
  intros _ _. rewrite !perform_present. intros E1 E2.
  injection E1 as <-. injection E2 as <-. cbn [verb path].
  apply routes_distinct.
Qed.

Lemma operations_do_not_collide_witness :
  StartService = StartService /\ 7%N = 7%N.
Proof.
  apply (operations_do_not_collide (Body := unit)
           StartService StartService 7%N 7%N None (Some tt)
           (mkRequest POST "/services/7/start" None)
           (mkRequest POST "/services/7/start" (Some tt)));
    reflexivity.
Defined.

(* ------------------------------------------------------------------ *)
(** ** Lines per section                                                *)
(* ------------------------------------------------------------------ *)

Lemma report_length (v : Validator) (s : option PRTemplateSection) :
  List.length (report v s)
  = match v with
    | QualityAssurance => if qaFallsThrough s then 2%nat else 1%nat
    | _ => 1%nat
    end.
Proof.
  unfold report, qaFallsThrough.
  destruct (optBodies_cases s) as [Hnone | [bs ->]].
  - rewrite (validate_missing v s _ Hnone), Hnone. destruct v; reflexivity.
  - destruct v; cbn [validate optBodies bodies].
    + rewrite validateDescriptionOfChanges_cases.
      destruct (concreteItems bs); [reflexivity|].
      destruct (meaningfulItems bs); reflexivity.
    + rewrite validateResolvedIssuesSection_cases.
      destruct (firstListBlock bs) as [blk|]; [|reflexivity].
      destruct (MarkdownItem.raw blk) as [raw|]; [|reflexivity].
      destruct (Str.isEmpty raw); [reflexivity|].
      unfold issuesVerdict.
      destruct (negb _ || mentionsNA raw); reflexivity.
    + rewrite validateQaSection_cases.
      destruct (firstListBlock bs) as [[ty raw [[|[ck [r|]] rest]|]]|];
        try reflexivity.
      unfold qaOnCriteria. cbn [MarkdownItem.items ListItem.raw].
      destruct (Str.isEmpty r); [reflexivity|]. cbn [orb].
      destruct (String.eqb (Str.trim r) SUCCESS_CRITERIA_TITLE); reflexivity.
Qed.

(** X17.  Run alone, the description check and the issues check each write
    one line on every section.  The Quality Assurance check writes two, a
    failure and then a pass, exactly when the raw text of the first item
    of the first list-typed block is the empty string or trims to the
    template heading, and one line in every other case, the one that ends
    in an exception included. *)
Theorem lines_per_section (s : option PRTemplateSection) :
  List.length (report DescriptionOfChanges s) = 1%nat
  /\ List.length (report ResolvedIssues s) = 1%nat
  /\ List.length (report QualityAssurance s)
     = if qaFallsThrough s then 2%nat else 1%nat.
Proof.
  repeat split;
    [exact (report_length DescriptionOfChanges s)
    |exact (report_length ResolvedIssues s)
    |exact (report_length QualityAssurance s)].
Qed.
